(** * React-Source-Downloader: path discovery and normalisation

    A shallow embedding of [src/react_downloader.py]: the string methods the
    program calls, [_clean_source_path], [_determine_file_type],
    [_parse_source_map], [_fetch_from_webpack_dev_server] and
    [_analyze_source_maps], followed by the properties of the discovered-files
    ledger and of path normalisation.

    Modelling conventions.
    - A Python [str] is a [string]: a sequence of 8-bit characters.
      [str.lower] is the ASCII one (only 'A'..'Z' change).
    - The value returned by [json.loads] is a [json] tree; a dict is the list
      of its items in insertion order (keys pairwise distinct).
    - [self.discovered_files] is threaded explicitly; a raised exception is a
      value of [py_exn] and leaves the appends made before it in place.
    - [json.loads], [urllib.parse.quote] and [session.get] are library or
      network calls: they are variables of the section that uses them.
    - Console output (the [print] calls) is not modelled; an expression that
      is only printed is still evaluated when it can raise. *)

From Stdlib Require Import Ascii NArith.
From stdpp Require Import base list strings.

(** ** Python string methods *)

Module Str.

(** [bool(s)]: a string is truthy when it is not empty. *)
Definition truthy (s : string) : bool :=
  match s with EmptyString => false | String _ _ => true end.

(** [s.startswith(pre)] *)
Fixpoint startswith (s pre : string) {struct pre} : bool :=
  match pre, s with
  | EmptyString, _ => true
  | String a pre', String b s' => Ascii.eqb a b && startswith s' pre'
  | String _ _, EmptyString => false
  end.

(** [s.startswith((p1, ..., pn))] *)
Definition startswith_any (s : string) (pres : list string) : bool :=
  existsb (startswith s) pres.

(** [s.endswith(suf)]: some suffix of [s] is [suf]. *)
Fixpoint endswith (s suf : string) : bool :=
  String.eqb s suf ||
  match s with
  | EmptyString => false
  | String _ s' => endswith s' suf
  end.

(** [s.endswith((s1, ..., sn))] *)
Definition endswith_any (s : string) (sufs : list string) : bool :=
  existsb (endswith s) sufs.

(** [sub in s] *)
Fixpoint contains (sub s : string) : bool :=
  startswith s sub ||
  match s with
  | EmptyString => false
  | String _ s' => contains sub s'
  end.

(** [s[n:]] *)
Fixpoint slice_from (n : nat) (s : string) : string :=
  match n, s with
  | O, _ => s
  | S n', String _ s' => slice_from n' s'
  | S _, EmptyString => EmptyString
  end.

Fixpoint char_in (c : ascii) (chars : string) : bool :=
  match chars with
  | EmptyString => false
  | String d chars' => Ascii.eqb c d || char_in c chars'
  end.

(** [s.lstrip(chars)]: drops leading characters that belong to [chars]. *)
Fixpoint lstrip (chars s : string) : string :=
  match s with
  | EmptyString => EmptyString
  | String c s' => if char_in c chars then lstrip chars s' else s
  end.

(** [s.split(sep)] for a one-character separator. *)
Fixpoint split (sep : ascii) (s : string) : list string :=
  match s with
  | EmptyString => [EmptyString]
  | String c s' =>
      if Ascii.eqb c sep then EmptyString :: split sep s'
      else match split sep s' with
           | h :: t => String c h :: t
           | [] => [String c EmptyString]
           end
  end.

(** [sep.join(parts)] *)
Fixpoint join (sep : string) (parts : list string) : string :=
  match parts with
  | [] => EmptyString
  | [p] => p
  | p :: rest => p +:+ sep +:+ join sep rest
  end.

Definition lower_char (c : ascii) : ascii :=
  let n := N_of_ascii c in
  if (65 <=? n)%N && (n <=? 90)%N then ascii_of_N (n + 32) else c.

(** [s.lower()] *)
Fixpoint lower (s : string) : string :=
  match s with
  | EmptyString => EmptyString
  | String c s' => String (lower_char c) (lower s')
  end.

(** [s.replace(old, new)] for a non-empty [old]: occurrences are replaced
    from the left and do not overlap; [skip] counts the characters of the
    occurrence just replaced that are still to be passed over. *)
Fixpoint replace_from (skip : nat) (old new s : string) : string :=
  match s with
  | EmptyString => EmptyString
  | String c s' =>
      match skip with
      | S k => replace_from k old new s'
      | O =>
          if startswith s old
          then new +:+ replace_from (String.length old - 1) old new s'
          else String c (replace_from O old new s')
      end
  end.

Definition replace (old new s : string) : string := replace_from O old new s.

(** [s.rstrip(chars)]: drops trailing characters that belong to [chars]. *)
Fixpoint rstrip (chars s : string) : string :=
  match s with
  | EmptyString => EmptyString
  | String c s' =>
      match rstrip chars s' with
      | EmptyString => if char_in c chars then EmptyString else String c EmptyString
      | r => String c r
      end
  end.

End Str.

(** [x in [s1, ..., sn]] for strings *)
Definition in_list (x : string) (l : list string) : bool :=
  existsb (String.eqb x) l.

(** ** [_clean_source_path] *)

(** "Remove webpack:// prefix" *)
Definition remove_webpack_prefix (source_path : string) : string :=
  if Str.startswith source_path "webpack://"
  then Str.slice_from 10 source_path
  else source_path.

(** "If first part looks like a project name (no extension)":
    [len(parts) > 1 and not parts[0].endswith(('.js', ...))] *)
Definition looks_like_project_name (parts : list string) : bool :=
  (1 <? length parts) &&
  negb (Str.endswith_any (hd EmptyString parts) [".js"; ".ts"; ".jsx"; ".tsx"; ".css"]).

(** "Common project name patterns to skip":
    [parts[0] in ['src', '.', '..'] or len(parts[0]) > 20] *)
Definition project_name_to_skip (parts : list string) : bool :=
  in_list (hd EmptyString parts) ["src"; "."; ".."] ||
  (20 <? String.length (hd EmptyString parts)).

(** "Handle different webpack path patterns" *)
Definition handle_path_patterns (source_path : string) : string :=
  if Str.startswith source_path "./" then
    Str.slice_from 2 source_path
  else if Str.contains "/" source_path then
    let parts := Str.split "/" source_path in
    if looks_like_project_name parts then
      if project_name_to_skip parts then Str.join "/" (tl parts)
      else source_path
    else source_path
  else source_path.

(** The path has a '/' and a first part that "Handle different webpack path
    patterns" skips: the conditions of the [elif] and of its two nested
    [if]s. *)
Definition first_part_skipped (source_path : string) : bool :=
  Str.contains "/" source_path &&
  looks_like_project_name (Str.split "/" source_path) &&
  project_name_to_skip (Str.split "/" source_path).

(** "Clean up any remaining leading slashes or dots" *)
Definition strip_leading (source_path : string) : string :=
  Str.lstrip "/" (Str.lstrip "./" source_path).

(** "try to infer folder structure from common React patterns" *)
Definition infer_folder (source_path : string) : string :=
  if negb (Str.contains "/" source_path) && Str.truthy source_path then
    if Str.startswith_any source_path ["App."; "index."] then
      "src/" +:+ source_path
    else if Str.startswith_any source_path ["component"; "Component"] then
      "src/components/" +:+ source_path
    else if Str.endswith source_path ".css" then
      "src/styles/" +:+ source_path
    else source_path
  else source_path.

(** The value of the local [source_path] when the [return] is reached. *)
Definition cleaned (source_path : string) : string :=
  infer_folder (strip_leading (handle_path_patterns (remove_webpack_prefix source_path))).

(** [original_path.split('/')[-1]] *)
Definition last_segment (original_path : string) : string :=
  List.last (Str.split "/" original_path) EmptyString.

Definition _clean_source_path (source_path : string) : string :=
  let original_path := source_path in
  let source_path := cleaned source_path in
  if Str.truthy source_path then source_path else last_segment original_path.

(** ** [_determine_file_type] *)

Definition _determine_file_type (path : string) : string :=
  if Str.endswith path ".jsx" then "jsx"
  else if Str.endswith path ".tsx" then "tsx"
  else if Str.endswith path ".ts" then "ts"
  else if Str.endswith path ".js" then "js"
  else if Str.endswith path ".css" then "css"
  else if Str.endswith path ".scss" then "scss"
  else if Str.endswith path ".sass" then "sass"
  else if Str.endswith path ".json" then "json"
  else "unknown".

(** ** Values, exceptions and the ledger *)

(** What [json.loads] returns. The text of a number is kept, its value is
    never inspected by the program. *)
#[warnings="-register-all"] Inductive json : Type :=
  | JNull
  | JBool (b : bool)
  | JNum (literal : string)
  | JStr (s : string)
  | JArr (elements : list json)
  | JObj (items : list (string * json)).

(** The exceptions the modelled code can raise. *)
Inductive py_exn : Type :=
  | JSONDecodeError
  | TypeError
  | AttributeError
  | KeyError.

Inductive result (A : Type) : Type :=
  | Ok (a : A)
  | Raise (e : py_exn).
Arguments Ok {A} a.
Arguments Raise {A} e.

(** One entry of [self.discovered_files]: the dict with keys 'path',
    'content', 'type', 'source' and 'original_path'. *)
Record file_info : Type := FileInfo {
  path : string;
  content : json;
  type : string;
  source : string;
  original_path : string
}.

(** A computation over [self.discovered_files] that may raise. The list it
    returns is the ledger as the computation (or the exception) left it. *)
Definition Run (A : Type) : Type :=
  list file_info -> list file_info * result A.

Definition ret {A} (a : A) : Run A := fun files => (files, Ok a).

Definition bind {A B} (c : Run A) (k : A -> Run B) : Run B :=
  fun files =>
    match c files with
    | (files', Ok a) => k a files'
    | (files', Raise e) => (files', Raise e)
    end.

Notation "x <- c ;; k" := (bind c (fun x => k))
  (at level 100, c at next level, right associativity).

Definition lift {A} (r : result A) : Run A := fun files => (files, r).

(** Reads [self.discovered_files]. *)
Definition discovered_files : Run (list file_info) :=
  fun files => (files, Ok files).

(** [self.discovered_files.append(f)] *)
Definition append (f : file_info) : Run unit :=
  fun files => (files ++ [f], Ok tt).

(** [for x in xs: body(x)] *)
Fixpoint for_each {A} (body : A -> Run unit) (xs : list A) : Run unit :=
  match xs with
  | [] => ret tt
  | x :: xs' => _ <- body x ;; for_each body xs'
  end.

(** ** Python operators on loaded values *)

Definition dict_get (key : string) (items : list (string * json)) : option json :=
  snd <$> List.find (fun kv => String.eqb (fst kv) key) items.

Definition is_str (key : string) (v : json) : bool :=
  match v with JStr s => String.eqb s key | _ => false end.

(** [key in v] *)
Definition py_in (key : string) (v : json) : result bool :=
  match v with
  | JObj items => Ok (existsb (fun kv => String.eqb (fst kv) key) items)
  | JArr elements => Ok (existsb (is_str key) elements)
  | JStr s => Ok (Str.contains key s)
  | JNull | JBool _ | JNum _ => Raise TypeError
  end.

(** [v[key]] for a string key *)
Definition py_getitem (v : json) (key : string) : result json :=
  match v with
  | JObj items =>
      match dict_get key items with
      | Some x => Ok x
      | None => Raise KeyError
      end
  | _ => Raise TypeError
  end.

Definition chars (s : string) : list json :=
  (fun c => JStr (String c EmptyString)) <$> String.list_ascii_of_string s.

(** [iter(v)]: the values a [for] loop or [zip] draws from [v]. *)
Definition py_iter (v : json) : result (list json) :=
  match v with
  | JArr elements => Ok elements
  | JStr s => Ok (chars s)
  | JObj items => Ok ((fun kv => JStr (fst kv)) <$> items)
  | JNull | JBool _ | JNum _ => Raise TypeError
  end.

(** [len(v)] *)
Definition py_len (v : json) : result nat :=
  match v with
  | JArr elements => Ok (length elements)
  | JStr s => Ok (String.length s)
  | JObj items => Ok (length items)
  | JNull | JBool _ | JNum _ => Raise TypeError
  end.

(** [zip(a, b)]: stops at the shorter of the two. *)
Definition py_zip (a b : json) : result (list (json * json)) :=
  match py_iter a, py_iter b with
  | Ok xs, Ok ys => Ok (zip xs ys)
  | Raise e, _ => Raise e
  | _, Raise e => Raise e
  end.

(** [v is None] *)
Definition is_None (v : json) : bool :=
  match v with JNull => true | _ => false end.

(** The receiver of the string methods of [_clean_source_path]: anything
    but a [str] has no [startswith]. *)
Definition as_str (v : json) : result string :=
  match v with
  | JStr s => Ok s
  | _ => Raise AttributeError
  end.

(** [any(f['path'] == clean_path for f in self.discovered_files)] *)
Definition path_seen (clean_path : string) (files : list file_info) : bool :=
  existsb (fun f => String.eqb (path f) clean_path) files.

(** ** The downloader *)

(** A [requests] response, as far as the program reads it. *)
Record response : Type := Response {
  status_code : Z;
  text : string
}.

(** The condition of the [if] that guards the sourcemap append, "Skip
    node_modules and webpack internal files". In Python [and] binds tighter
    than [or]: the seven conjuncts form the left operand of the [or]. *)
Definition passes_skip_filter (clean_path source_path : string) : bool :=
  (Str.truthy clean_path &&
   negb (Str.contains "node_modules" (Str.lower clean_path)) &&
   negb (Str.contains "webpack/" clean_path) &&
   negb (Str.contains "(webpack)" clean_path) &&
   negb (Str.startswith clean_path "multi ") &&
   negb (Str.startswith clean_path "webpack:") &&
   negb (String.eqb clean_path source_path))
  ||
  negb (existsb (fun skip => Str.contains skip (Str.lower source_path))
          ["webpack-dev-server"; "hot-dev-server"; "webpack/hot"]).

Module ReactSourceDownloader.

Section Downloader.

(** [json.loads]: the loaded value, or the exception it raised. *)
Variable json_loads : string -> result json.
(** [self.base_url] *)
Variable base_url : string.
(** [urllib.parse.quote(_, safe='/:')]; [None] when it raises. *)
Variable quote : string -> option string.
(** [self.session.get(url, timeout=...)]; [None] when it raises. *)
Variable session_get : string -> option response.

(** One endpoint of [_fetch_from_webpack_dev_server]: the body of its
    [try], with [except: continue] as [None]. *)
Definition try_endpoint (endpoint : string) : option string :=
  match quote endpoint with
  | Some encoded_path =>
      let test_url := base_url +:+ "/" +:+ encoded_path in
      match session_get test_url with
      | Some response =>
          if (status_code response =? 200)%Z then Some (text response)
          else None
      | None => None
      end
  | None => None
  end.

Fixpoint first_success (endpoints : list string) : option string :=
  match endpoints with
  | [] => None
  | endpoint :: rest =>
      match try_endpoint endpoint with
      | Some t => Some t
      | None => first_success rest
      end
  end.

Definition _fetch_from_webpack_dev_server (webpack_path : string) : option string :=
  let possible_endpoints :=
    [ "__webpack_dev_server__/src/" +:+ webpack_path;
      "webpack://" +:+ webpack_path;
      "src/" +:+ webpack_path;
      webpack_path ] in
  first_success possible_endpoints.

(** Body of the loop over [zip(sources, contents)]. *)
Definition sourcemap_entry (entry : json * json) : Run unit :=
  let '(source_path, content) := entry in
  if is_None content then ret tt
  else
    source_path <- lift (as_str source_path) ;;
    let clean_path := _clean_source_path source_path in
    if passes_skip_filter clean_path source_path then
      let file_type := _determine_file_type clean_path in
      files <- discovered_files ;;
      if negb (path_seen clean_path files) then
        append {| path := clean_path;
                  content := content;
                  type := file_type;
                  source := "sourcemap";
                  original_path := source_path |}
      else ret tt
    else ret tt.

(** Body of the loop over [source_map['sources']] when the map carries no
    'sourcesContent'. *)
Definition devserver_entry (source_path : json) : Run unit :=
  source_path <- lift (as_str source_path) ;;
  let clean_path := _clean_source_path source_path in
  files <- discovered_files ;;
  if Str.truthy clean_path &&
     negb (Str.contains "node_modules" clean_path) &&
     negb (path_seen clean_path files) then
    match _fetch_from_webpack_dev_server source_path with
    | Some content =>
        if Str.truthy content then
          let file_type := _determine_file_type clean_path in
          append {| path := clean_path;
                    content := JStr content;
                    type := file_type;
                    source := "webpack-dev-server";
                    original_path := source_path |}
        else ret tt
    | None => ret tt
    end
  else ret tt.

(** ['sources' in source_map and 'sourcesContent' in source_map] *)
Definition has_sources_and_content (source_map : json) : result bool :=
  match py_in "sources" source_map with
  | Ok true => py_in "sourcesContent" source_map
  | r => r
  end.

(** The [try] block of [_parse_source_map] after [json.loads]. *)
Definition parse_loaded (source_map : json) : Run unit :=
  both <- lift (has_sources_and_content source_map) ;;
  if both : bool then
    sources <- lift (py_getitem source_map "sources") ;;
    contents <- lift (py_getitem source_map "sourcesContent") ;;
    _ <- lift (py_len sources) ;;
    entries <- lift (py_zip sources contents) ;;
    for_each sourcemap_entry entries
  else
    only_sources <- lift (py_in "sources" source_map) ;;
    if only_sources : bool then
      sources <- lift (py_getitem source_map "sources") ;;
      entries <- lift (py_iter sources) ;;
      for_each devserver_entry entries
    else ret tt.

(** [_parse_source_map]: returns the ledger and the exception that the
    [except Exception] clause caught and printed, if any. The function
    itself never raises. *)
Definition _parse_source_map (map_content map_url : string)
    (files : list file_info) : list file_info * option py_exn :=
  match json_loads map_content with
  | Raise e => (files, Some e)
  | Ok source_map =>
      match parse_loaded source_map files with
      | (files', Ok _) => (files', None)
      | (files', Raise e) => (files', Some e)
      end
  end.

(** The loop over [map_urls]: the first URL answered with status 200 is
    parsed and ends the loop ([break]); any other answer, or an exception,
    moves on to the next URL. *)
Fixpoint try_map_urls (map_urls : list string) (files : list file_info)
    : list file_info :=
  match map_urls with
  | [] => files
  | map_url :: rest =>
      match session_get map_url with
      | Some response =>
          if (status_code response =? 200)%Z
          then fst (_parse_source_map (text response) map_url files)
          else try_map_urls rest files
      | None => try_map_urls rest files
      end
  end.

Definition map_urls_of (bundle_url : string) : list string :=
  [ bundle_url +:+ ".map";
    Str.replace ".css" ".css.map" (Str.replace ".js" ".js.map" bundle_url) ].

(** [_analyze_source_maps], over [self.source_maps]. *)
Definition _analyze_source_maps (source_maps : list string)
    (files : list file_info) : list file_info :=
  fold_left (fun files bundle_url => try_map_urls (map_urls_of bundle_url) files)
    source_maps files.

End Downloader.

End ReactSourceDownloader.

(** ** The rest of the class *)

(** [x in [n1, ..., nk]] for integers *)
Definition in_list_Z (x : Z) (l : list Z) : bool := existsb (Z.eqb x) l.

(** [table.get(key)] on a dict with string keys, given by its items. *)
Definition table_get {A : Type} (key : string) (table : list (string * A)) : option A :=
  snd <$> List.find (fun kv => String.eqb (fst kv) key) table.

(** [self.base_url] as [__init__] stores it. *)
Definition init_base_url (base_url : string) : string := Str.rstrip "/" base_url.

Definition _get_file_icon (file_type : string) : string :=
  let icons :=
    [ ("js", "📜"); ("jsx", "⚛️ "); ("ts", "📘"); ("tsx", "⚛️ ");
      ("css", "🎨"); ("scss", "🎨"); ("sass", "🎨"); ("json", "📋");
      ("unknown", "📄") ] in
  default "📄" (table_get file_type icons).

Definition _get_file_icon_by_ext (ext : string) : string :=
  let ext_icons :=
    [ (".js", "📜"); (".jsx", "⚛️ "); (".ts", "📘"); (".tsx", "⚛️ ");
      (".css", "🎨"); (".scss", "🎨"); (".sass", "🎨"); (".json", "📋");
      (".html", "🌐"); (".md", "📝") ] in
  default "📄" (table_get (Str.lower ext) ext_icons).

(** The file tree of [print_file_structure]: a level is a dict that may hold
    a 'files' list and a 'dirs' dict from folder names to levels. *)
Module Tree.

(** An item of a 'files' list. *)
Record entry : Type := Entry {
  name : string;
  type : string;
  source : string;
  size : nat
}.

#[warnings="-register-all"] Inductive file_tree : Type :=
  | Level (files : option (list entry)) (dirs : option (list (string * file_tree))).

(** [{}] *)
Definition empty : file_tree := Level None None.

(** [dirs[part] = level]: an existing key keeps its place, a new one goes
    last. *)
Fixpoint dict_set (part : string) (level : file_tree)
    (dirs : list (string * file_tree)) : list (string * file_tree) :=
  match dirs with
  | [] => [(part, level)]
  | (k, v) :: rest =>
      if String.eqb k part then (k, level) :: rest
      else (k, v) :: dict_set part level rest
  end.

(** The loop over [enumerate(path_parts)] for one file: the last part is
    appended to the 'files' of the level reached, every other part names the
    folder to step into, created empty when it is missing. *)
Fixpoint add_file (path_parts : list string) (item : string -> entry)
    (current_level : file_tree) : file_tree :=
  match path_parts, current_level with
  | [], _ => current_level
  | [part], Level files dirs =>
      Level (Some (default [] files ++ [item part])) dirs
  | part :: rest, Level files dirs =>
      let dirs := default [] dirs in
      let sub := default empty (table_get part dirs) in
      Level files (Some (dict_set part (add_file rest item sub) dirs))
  end.

(** The number of file items in a tree, over all its levels. *)
Fixpoint count_files (tree : file_tree) : nat :=
  match tree with
  | Level files dirs =>
      length (default [] files) +
      match dirs with
      | None => 0
      | Some ds =>
          (fix in_dirs (ds : list (string * file_tree)) : nat :=
             match ds with
             | [] => 0
             | (_, sub) :: rest => count_files sub + in_dirs rest
             end) ds
      end
  end.

(** Reading a tree back: the items that following [path_parts] from a level
    finds, in the 'files' of the folder the leading parts lead to, under the
    name given by the last part. *)
Fixpoint find_files (path_parts : list string) (tree : file_tree) : list entry :=
  match path_parts, tree with
  | [], _ => []
  | [part], Level files _ =>
      List.filter (fun e => String.eqb (name e) part) (default [] files)
  | part :: rest, Level _ dirs =>
      match table_get part (default [] dirs) with
      | Some sub => find_files rest sub
      | None => []
      end
  end.

End Tree.

(** What the two append sites of [_parse_source_map] put in a record: the
    path is the normalised original path, the type is the type of the path,
    and the record is either a 'sourcemap' one with a content that is not
    [None], or a 'webpack-dev-server' one with a non-empty text and a
    non-empty path without 'node_modules'. *)
Definition well_formed_record (f : file_info) : Prop :=
  path f = _clean_source_path (original_path f) /\
  type f = _determine_file_type (path f) /\
  ((source f = "sourcemap" /\ content f <> JNull) \/
   (source f = "webpack-dev-server" /\
    (exists t, content f = JStr t /\ t <> EmptyString) /\
    path f <> EmptyString /\
    Str.contains "node_modules" (path f) = false)).

(** The five counts of the summary of [print_file_structure]. *)
Record summary : Type := Summary {
  js_files : Z;
  css_files : Z;
  other_files : Z;
  sourcemap_files : Z;
  webpack_files : Z
}.

(** [len([f for f in files if keep(f)])] *)
Definition count_if (keep : file_info -> bool) (files : list file_info) : Z :=
  Z.of_nat (length (List.filter keep files)).

Definition summarize (files : list file_info) : summary :=
  let js_files := count_if (fun f => in_list (type f) ["js"; "jsx"; "ts"; "tsx"]) files in
  let css_files := count_if (fun f => in_list (type f) ["css"; "scss"; "sass"]) files in
  let other_files := (Z.of_nat (length files) - js_files - css_files)%Z in
  let sourcemap_files := count_if (fun f => String.eqb (source f) "sourcemap") files in
  let webpack_files := count_if (fun f => String.eqb (source f) "webpack-dev-server") files in
  {| js_files := js_files; css_files := css_files; other_files := other_files;
     sourcemap_files := sourcemap_files; webpack_files := webpack_files |}.

(** What a call returns or that it raised, with the two counters of
    [download_files] as they stood. *)
Inductive download_outcome : Type :=
  | Returned (successful_downloads failed_downloads : nat) (success : bool)
  | Raised.

Module Collaborators.

Section Collaborators.

(** [bool(x)] for a loaded number, given by its text. *)
Variable number_truthy : string -> bool.

(** [bool(v)] *)
Definition py_bool (v : json) : bool :=
  match v with
  | JNull => false
  | JBool b => b
  | JNum literal => number_truthy literal
  | JStr s => Str.truthy s
  | JArr elements => match elements with [] => false | _ :: _ => true end
  | JObj items => match items with [] => false | _ :: _ => true end
  end.

(** ['size': len(file_info['content']) if file_info['content'] else 0] *)
Definition content_size (content : json) : result nat :=
  if py_bool content then py_len content else Ok 0.

(** The loop of [print_file_structure] that groups the files by folder. *)
Fixpoint build_tree (files : list file_info) (file_tree : Tree.file_tree)
    : result Tree.file_tree :=
  match files with
  | [] => Ok file_tree
  | file_info :: rest =>
      let path_parts := Str.split "/" (path file_info) in
      match content_size (content file_info) with
      | Ok size =>
          let item part :=
            {| Tree.name := part; Tree.type := type file_info;
               Tree.source := source file_info; Tree.size := size |} in
          build_tree rest (Tree.add_file path_parts item file_tree)
      | Raise e => Raise e
      end
  end.

(** [print_file_structure]: [False] on an empty ledger, else the tree is
    built and [True] returned; an exception of the tree loop is not caught. *)
Definition print_file_structure (files : list file_info) : result bool :=
  match files with
  | [] => Ok false
  | _ =>
      match build_tree files Tree.empty with
      | Ok _ => Ok true
      | Raise e => Raise e
      end
  end.

(** The file system, with the calls [download_files] makes on it. *)
Variable fs : Type.
(** [Path(self.output_dir).mkdir(parents=True, exist_ok=True)]; [false] when
    it raises. *)
Variable mkdir_output : fs -> fs * bool.
(** The statements of the [try] block after the content test, from
    [os.path.join] to [f.write]; [false] when one of them raises. *)
Variable write_file : fs -> file_info -> fs * bool.
(** [_show_created_structure]; [false] when it raises. *)
Variable _show_created_structure : fs -> bool.

(** The loop of [download_files] with its two counters. *)
Fixpoint write_all (files : list file_info) (disk : fs)
    (successful_downloads failed_downloads : nat) : fs * nat * nat :=
  match files with
  | [] => (disk, successful_downloads, failed_downloads)
  | file_info :: rest =>
      if negb (py_bool (content file_info)) then
        write_all rest disk successful_downloads (S failed_downloads)
      else
        let '(disk', written) := write_file disk file_info in
        if written : bool then
          write_all rest disk' (S successful_downloads) failed_downloads
        else
          write_all rest disk' successful_downloads (S failed_downloads)
  end.

Definition download_files (files : list file_info) (disk : fs)
    : fs * download_outcome :=
  match files with
  | [] => (disk, Returned 0 0 false)
  | _ =>
      let '(disk, made) := mkdir_output disk in
      if made : bool then
        let '(disk, successful_downloads, failed_downloads) :=
          write_all files disk 0 0 in
        if _show_created_structure disk then
          (disk, Returned successful_downloads failed_downloads
                   (0 <? successful_downloads))
        else (disk, Raised)
      else (disk, Raised)
  end.

Variable json_loads : string -> result json.
Variable base_url : string.
Variable quote : string -> option string.
Variable session_get : string -> option response.
(** [re.findall(script_pattern, content, re.IGNORECASE)] and the same for
    [css_pattern]. *)
Variable find_scripts find_styles : string -> list string.
(** [urllib.parse.urljoin]; [None] when it raises. *)
Variable urljoin : string -> string -> option string.

(** One of the two loops of [_scan_main_page] that store the bundles; the
    flag is [false] when [urljoin] raised, which ends the [try] block. *)
Fixpoint store_bundles (found : list string) (source_maps : list string)
    : list string * bool :=
  match found with
  | [] => (source_maps, true)
  | script :: rest =>
      if negb (Str.startswith_any script ["http:"; "https:"; "//"]) then
        match urljoin (base_url +:+ "/") script with
        | Some full_url => store_bundles rest (source_maps ++ [full_url])
        | None => (source_maps, false)
        end
      else store_bundles rest source_maps
  end.

Definition _scan_main_page (source_maps : list string) : list string :=
  match session_get base_url with
  | Some response =>
      if (status_code response =? 200)%Z then
        let content := text response in
        let scripts := find_scripts content in
        let styles := find_styles content in
        let '(source_maps, stored) := store_bundles scripts source_maps in
        if stored : bool then fst (store_bundles styles source_maps)
        else source_maps
      else source_maps
  | None => source_maps
  end.

Definition _try_webpack_dev_server : bool :=
  let webpack_patterns :=
    ["__webpack_hmr"; "sockjs-node"; "webpack-dev-server"; "__webpack_dev_server__"] in
  existsb
    (fun pattern =>
       let test_url := base_url +:+ "/" +:+ pattern in
       match session_get test_url with
       | Some response =>
           in_list_Z (status_code response) [200; 426]%Z
       | None => false
       end)
    webpack_patterns.

(** [discover_files], on [self.source_maps] and [self.discovered_files]. *)
Definition discover_files (source_maps : list string) (files : list file_info)
    : list string * list file_info :=
  let source_maps := _scan_main_page source_maps in
  let files :=
    ReactSourceDownloader._analyze_source_maps
      json_loads base_url quote session_get source_maps files in
  let _ := _try_webpack_dev_server in
  (source_maps, files).

End Collaborators.

End Collaborators.

(** ** A sample run

    Two bundles whose maps load, one whose map is not JSON, and one without a
    map, on a local dev server. *)

Module Sample.

Definition map_a : json :=
  JObj [("version", JNum "3");
        ("sources", JArr [JStr "a.js"; JStr "b.js"]);
        ("sourcesContent", JArr [JStr "contentA"; JNull])].

Definition map_b : json :=
  JObj [("sources", JArr [JStr "a.js"; JStr "b.js"; JStr "c.js"]);
        ("sourcesContent", JArr [JStr "other"; JStr "contentB"])].

Definition map_c : json :=
  JObj [("sources", JArr [JStr "webpack://src/App.js"; JStr "a.js"])].

Definition json_loads (map_content : string) : result json :=
  if String.eqb map_content "map a" then Ok map_a
  else if String.eqb map_content "map b" then Ok map_b
  else if String.eqb map_content "map c" then Ok map_c
  else if String.eqb map_content "{}" then Ok (JObj [])
  else Raise JSONDecodeError.

Definition base_url : string := "http://localhost:3000".

Definition quote (endpoint : string) : option string := Some endpoint.

Definition session_get (url : string) : option response :=
  if String.eqb url "http://localhost:3000/a.js.map" then
    Some {| status_code := 200; text := "map a" |}
  else if String.eqb url "http://localhost:3000/b.js.map" then
    Some {| status_code := 200; text := "map b" |}
  else if String.eqb url "http://localhost:3000/c.js.map" then
    Some {| status_code := 200; text := "<html>" |}
  else if String.eqb url "http://localhost:3000/d.js.map" then
    Some {| status_code := 404; text := "" |}
  else if String.eqb url "http://localhost:3000/src/webpack://src/App.js" then
    Some {| status_code := 200; text := "export default App" |}
  else None.

Definition record_a : file_info :=
  {| path := "a.js"; content := JStr "contentA"; type := "js";
     source := "sourcemap"; original_path := "a.js" |}.

Definition record_b : file_info :=
  {| path := "b.js"; content := JStr "contentB"; type := "js";
     source := "sourcemap"; original_path := "b.js" |}.

End Sample.

(** ** A sample site and disk

    An entry page with two local scripts, an external one and a style sheet,
    and a disk that records the paths written to it. *)

Module SampleSite.

Definition session_get (url : string) : option response :=
  if String.eqb url Sample.base_url then
    Some {| status_code := 200; text := "<html>" |}
  else Sample.session_get url.

Definition find_scripts (content : string) : list string :=
  ["a.js"; "https://cdn.example.com/react.js"; "b.js"].

Definition find_styles (content : string) : list string :=
  ["//fonts.example.com/font.css"; "main.css"].

Definition urljoin (base url : string) : option string := Some (base +:+ url).

Definition number_truthy (literal : string) : bool :=
  negb (in_list literal ["0"; "-0"; "0.0"; "-0.0"]).

(** The disk: the paths of the files written, the newest first. *)
Definition disk : Type := list string.

Definition mkdir_output (d : disk) : disk * bool := (d, true).

Definition write_file (d : disk) (f : file_info) : disk * bool :=
  (path f :: d, true).

Definition _show_created_structure (d : disk) : bool := true.

Definition record_empty : file_info :=
  {| path := "src/empty.js"; content := JStr ""; type := "js";
     source := "sourcemap"; original_path := "./src/empty.js" |}.

Definition record_number : file_info :=
  {| path := "data.json"; content := JNum "5"; type := "json";
     source := "sourcemap"; original_path := "data.json" |}.

End SampleSite.

(** * Properties *)

(** ** String methods *)

Module StrFacts.
Import Str.

#[local] Arguments String.append : simpl nomatch.

Lemma truthy_true s : truthy s = true <-> s <> EmptyString.
Proof. destruct s; simpl; split; easy. Qed.

Lemma truthy_false s : truthy s = false <-> s = EmptyString.
Proof. destruct s; simpl; split; easy. Qed.

Lemma append_empty_r s : s +:+ EmptyString = s.
Proof. induction s as [|c s IH]; simpl; congruence. Qed.

Lemma append_assoc a b c : (a +:+ b) +:+ c = a +:+ (b +:+ c).
Proof. induction a as [|x a IH]; simpl; congruence. Qed.

Lemma startswith_spec s pre :
  startswith s pre = true -> s = pre +:+ slice_from (String.length pre) s.
Proof.
  revert s. induction pre as [|a pre IH]; intros [|b s]; simpl; try easy.
  intros [Hab Hrest]%andb_prop.
  apply Ascii.eqb_eq in Hab. subst b. f_equal. auto.
Qed.

Lemma startswith_append pre s : startswith (pre +:+ s) pre = true.
Proof.
  induction pre as [|a pre IH]; simpl; [easy|].
  rewrite Ascii.eqb_refl. exact IH.
Qed.

Lemma split_nonempty sep s : split sep s <> [].
Proof.
  destruct s as [|c s]; simpl; [easy|].
  destruct (Ascii.eqb c sep); [easy|]. destruct (split sep s); easy.
Qed.

Lemma split_append sep a b :
  split sep (a +:+ String sep b) = split sep a ++ split sep b.
Proof.
  induction a as [|c a IH]; simpl.
  - now rewrite Ascii.eqb_refl.
  - rewrite IH. destruct (Ascii.eqb c sep); [reflexivity|].
    pose proof (split_nonempty sep a) as Hne.
    destruct (split sep a); [easy|reflexivity].
Qed.

Lemma join_split s : join "/" (split "/" s) = s.
Proof.
  induction s as [|c s IH]; [reflexivity|].
  pose proof (split_nonempty "/" s) as Hne.
  cbn [split]. destruct (Ascii.eqb_spec c "/") as [->|Hc].
  - destruct (split "/" s) as [|h t]; [easy|].
    change (join "/" (EmptyString :: h :: t))
      with (String "/" (join "/" (h :: t))).
    now rewrite IH.
  - destruct (split "/" s) as [|h [|h' t]]; [easy| |].
    + simpl in *. now rewrite IH.
    + change (join "/" (String c h :: h' :: t))
        with (String c (h +:+ "/" +:+ join "/" (h' :: t))).
      f_equal. exact IH.
Qed.

Lemma contains_slash_cons c s :
  contains "/" (String c s) = Ascii.eqb c "/" || contains "/" s.
Proof.
  simpl. rewrite Ascii.eqb_sym. now rewrite andb_true_r.
Qed.

Lemma no_slash_split s : contains "/" s = false -> split "/" s = [s].
Proof.
  induction s as [|c s IH]; [reflexivity|].
  rewrite contains_slash_cons. intros [Hc Hs]%orb_false_elim.
  cbn [split]. rewrite Hc, (IH Hs). reflexivity.
Qed.

Lemma slash_split_length s :
  contains "/" s = true -> 2 <= length (split "/" s).
Proof.
  induction s as [|c s IH]; [easy|].
  rewrite contains_slash_cons. cbn [split].
  pose proof (split_nonempty "/" s) as Hne.
  destruct (Ascii.eqb c "/"); simpl.
  - intros _. destruct (split "/" s); [easy|simpl; lia].
  - intros Hs. specialize (IH Hs).
    destruct (split "/" s); [easy|simpl in *; lia].
Qed.

(** A string with a separator is its first part, the separator, and the
    remaining parts joined. *)
Lemma slash_first_rest s :
  contains "/" s = true ->
  s = hd EmptyString (split "/" s) +:+ String "/" (join "/" (tl (split "/" s))).
Proof.
  intros Hs. pose proof (slash_split_length s Hs) as Hlen.
  pose proof (join_split s) as Hjoin.
  destruct (split "/" s) as [|h [|h' t]]; simpl in Hlen; try lia.
  rewrite <- Hjoin at 1. reflexivity.
Qed.

Lemma last_app_nonempty {A} (l1 l2 : list A) d :
  l2 <> [] -> List.last (l1 ++ l2) d = List.last l2 d.
Proof.
  intros Hne. induction l1 as [|x l1 IH]; [reflexivity|].
  simpl. destruct (l1 ++ l2) eqn:E; [|exact IH].
  apply app_eq_nil in E. easy.
Qed.

Lemma lstrip_char_in chars s :
  lstrip chars s = EmptyString \/
  exists c r, lstrip chars s = String c r /\ char_in c chars = false.
Proof.
  induction s as [|c s IH]; simpl; [now left|].
  destruct (char_in c chars) eqn:E; [exact IH|]. right. eauto.
Qed.

Lemma lstrip_id chars c r :
  char_in c chars = false -> lstrip chars (String c r) = String c r.
Proof. intros H. simpl. now rewrite H. Qed.

Lemma dots_no_slash s : lstrip "." s = EmptyString -> contains "/" s = false.
Proof.
  induction s as [|c s IH]; [reflexivity|].
  rewrite contains_slash_cons. cbn [lstrip].
  destruct (char_in c ".") eqn:E; [|easy].
  intros Hs. rewrite (IH Hs), orb_false_r.
  simpl in E. rewrite orb_false_r in E. apply Ascii.eqb_eq in E. now subst.
Qed.

Lemma dots_lstrip s : lstrip "." s = EmptyString -> lstrip "./" s = EmptyString.
Proof.
  induction s as [|c s IH]; [reflexivity|]. cbn [lstrip].
  destruct (char_in c ".") eqn:E; [|easy].
  simpl in E. rewrite orb_false_r in E.
  intros Hs. simpl. rewrite E. simpl. auto.
Qed.

End StrFacts.

(** ** Path normalisation *)

Module CleanFacts.
Import Str StrFacts.

#[local] Arguments String.append : simpl nomatch.

Lemma last_segment_append a b :
  last_segment (a +:+ String "/" b) = last_segment b.
Proof.
  unfold last_segment. rewrite split_append.
  apply last_app_nonempty, split_nonempty.
Qed.

Lemma last_segment_no_slash s : contains "/" s = false -> last_segment s = s.
Proof. intros H. unfold last_segment. now rewrite (no_slash_split s H). Qed.

Lemma last_segment_remove_prefix p :
  last_segment (remove_webpack_prefix p) = last_segment p.
Proof.
  unfold remove_webpack_prefix.
  destruct (startswith p "webpack://") eqn:E; [|reflexivity].
  apply startswith_spec in E. simpl String.length in E.
  rewrite E at 2.
  change ("webpack://" +:+ slice_from 10 p)
    with ("webpack:/" +:+ String "/" (slice_from 10 p)).
  now rewrite last_segment_append.
Qed.

Lemma last_segment_handle p :
  last_segment (handle_path_patterns p) = last_segment p.
Proof.
  unfold handle_path_patterns.
  destruct (startswith p "./") eqn:E.
  - apply startswith_spec in E. simpl String.length in E. rewrite E at 2.
    change ("./" +:+ slice_from 2 p) with ("." +:+ String "/" (slice_from 2 p)).
    now rewrite last_segment_append.
  - destruct (contains "/" p) eqn:Hs; [|reflexivity]. cbv zeta.
    destruct (looks_like_project_name _); [|reflexivity].
    destruct (project_name_to_skip _); [|reflexivity].
    rewrite <- (last_segment_append (hd EmptyString (split "/" p))).
    f_equal. symmetry. now apply slash_first_rest.
Qed.

(** The last part of a string made of dots and slashes is made of dots. *)
Lemma last_segment_dots b :
  lstrip "./" b = EmptyString -> lstrip "." (last_segment b) = EmptyString.
Proof.
  induction b as [|c b IH]; [reflexivity|]. cbn [lstrip].
  destruct (char_in c "./") eqn:E; [|easy]. intros Hb.
  specialize (IH Hb). unfold last_segment in *. cbn [split].
  pose proof (split_nonempty "/" b) as Hne.
  destruct (Ascii.eqb_spec c "/") as [->|Hc].
  - destruct (split "/" b); [easy|exact IH].
  - assert (c = "."%char) as ->.
    { simpl in E. rewrite orb_false_r in E.
      apply orb_prop in E as [E|E]; apply Ascii.eqb_eq in E; congruence. }
    destruct (split "/" b) as [|h [|h' t]]; [easy| |exact IH].
    simpl in *. exact IH.
Qed.

Lemma strip_leading_lstrip s : strip_leading s = lstrip "./" s.
Proof.
  unfold strip_leading.
  destruct (lstrip_char_in "./" s) as [->|(c & r & -> & Hc)]; [reflexivity|].
  apply lstrip_id. simpl in *.
  apply orb_false_elim in Hc as [_ Hc]. exact Hc.
Qed.

(** After "Clean up any remaining leading slashes or dots" the path is
    empty or begins with a character that is neither. *)
Lemma strip_leading_head s :
  strip_leading s = EmptyString \/
  exists c r, strip_leading s = String c r /\
              Ascii.eqb c "." = false /\ Ascii.eqb c "/" = false.
Proof.
  rewrite strip_leading_lstrip.
  destruct (lstrip_char_in "./" s) as [->|(c & r & -> & Hc)]; [now left|].
  right. exists c, r. simpl in Hc. rewrite orb_false_r in Hc.
  apply orb_false_elim in Hc. easy.
Qed.

Lemma infer_folder_cases t :
  infer_folder t = t \/
  contains "/" t = false /\
  (infer_folder t = "src/" +:+ t \/
   infer_folder t = "src/components/" +:+ t \/
   infer_folder t = "src/styles/" +:+ t).
Proof.
  unfold infer_folder.
  destruct (contains "/" t); cbn [negb andb]; [now left|].
  destruct (truthy t); [|now left].
  destruct (startswith_any t ["App."; "index."]); [right; auto|].
  destruct (startswith_any t ["component"; "Component"]); [right; auto|].
  destruct (endswith t ".css"); [right; auto|now left].
Qed.

Lemma infer_folder_empty t : infer_folder t = EmptyString -> t = EmptyString.
Proof.
  destruct (infer_folder_cases t) as [->|[_ [->|[->| ->]]]]; easy.
Qed.

Lemma infer_folder_head c r :
  Ascii.eqb c "." = false -> Ascii.eqb c "/" = false ->
  startswith (infer_folder (String c r)) "/" = false /\
  startswith (infer_folder (String c r)) "." = false.
Proof.
  intros Hdot Hslash.
  destruct (infer_folder_cases (String c r)) as [->|[_ [->|[->| ->]]]];
    [|split; reflexivity..].
  cbn [startswith].
  rewrite (Ascii.eqb_sym "/" c), (Ascii.eqb_sym "." c), Hdot, Hslash. easy.
Qed.

Lemma clean_when_cleaned p :
  cleaned p <> EmptyString -> _clean_source_path p = cleaned p.
Proof.
  intros H. unfold _clean_source_path.
  apply truthy_true in H. now rewrite H.
Qed.

Lemma clean_when_fallback p :
  cleaned p = EmptyString ->
  _clean_source_path p = last_segment p /\
  lstrip "." (last_segment p) = EmptyString.
Proof.
  intros H. unfold _clean_source_path. rewrite H. split; [reflexivity|].
  unfold cleaned in H. apply infer_folder_empty in H.
  rewrite strip_leading_lstrip in H. apply last_segment_dots in H.
  now rewrite last_segment_handle, last_segment_remove_prefix in H.
Qed.

Lemma src_first_part_skipped t : first_part_skipped ("src/" +:+ t) = true.
Proof.
  unfold first_part_skipped.
  change ("src/" +:+ t) with ("src" +:+ String "/" t).
  rewrite split_append.
  pose proof (split_nonempty "/" t) as Hne.
  destruct (split "/" t) eqn:E; [easy|]. reflexivity.
Qed.

Lemma clean_dots d :
  lstrip "." d = EmptyString -> _clean_source_path d = d.
Proof.
  intros Hd. pose proof (dots_no_slash d Hd) as Hs.
  pose proof (dots_lstrip d Hd) as Hl.
  assert (remove_webpack_prefix d = d) as Hr.
  { unfold remove_webpack_prefix.
    destruct (startswith d "webpack://") eqn:E; [|reflexivity].
    apply startswith_spec in E. rewrite E in Hd. simpl in Hd. easy. }
  assert (handle_path_patterns d = d) as Hh.
  { unfold handle_path_patterns. rewrite Hs.
    destruct (startswith d "./") eqn:E; [|reflexivity].
    apply startswith_spec in E. rewrite E in Hs. simpl in Hs. easy. }
  unfold _clean_source_path, cleaned.
  rewrite Hr, Hh, strip_leading_lstrip, Hl. simpl.
  now apply last_segment_no_slash.
Qed.

End CleanFacts.

Section Normalisation.
Import Str StrFacts CleanFacts.

#[local] Arguments String.append : simpl nomatch.

(** C2, as the code has it. [_clean_source_path] is a total function and its
    result never begins with '/'. When the path left by the clean-up steps is
    not empty, that path is the result: it is not empty and begins neither
    with '/' nor with '.'. When the clean-up leaves nothing, the result is the
    last '/'-part of the original input, and that part consists of '.'
    characters only: it can be empty or begin with '.'. *)
Theorem clean_source_path_shape (p : string) :
  startswith (_clean_source_path p) "/" = false /\
  (cleaned p <> EmptyString ->
     _clean_source_path p = cleaned p /\
     _clean_source_path p <> EmptyString /\
     startswith (_clean_source_path p) "." = false) /\
  (cleaned p = EmptyString ->
     _clean_source_path p = last_segment p /\
     lstrip "." (_clean_source_path p) = EmptyString).
Proof.
  assert (Hkept : cleaned p <> EmptyString ->
    _clean_source_path p = cleaned p /\
    startswith (cleaned p) "/" = false /\ startswith (cleaned p) "." = false).
  { intros Hne. split; [now apply clean_when_cleaned|].
    unfold cleaned in *.
    destruct (strip_leading_head (handle_path_patterns (remove_webpack_prefix p)))
      as [E|(c & r & E & Hdot & Hslash)]; rewrite E in *.
    - now destruct Hne.
    - now apply infer_folder_head. }
  assert (Hfall : cleaned p = EmptyString ->
    _clean_source_path p = last_segment p /\
    lstrip "." (_clean_source_path p) = EmptyString).
  { intros E. destruct (clean_when_fallback p E) as [-> Hdots]. easy. }
  split; [|split].
  - destruct (cleaned p) eqn:E.
    + destruct (Hfall eq_refl) as [_ Hdots].
      destruct (_clean_source_path p) as [|c r]; [reflexivity|].
      cbn [startswith]. destruct (Ascii.eqb_spec "/" c) as [<-|]; easy.
    + destruct Hkept as (-> & H & _); easy.
  - intros Hne. destruct (Hkept Hne) as (Heq & _ & Hdot).
    rewrite Heq. easy.
  - exact Hfall.
Qed.

Lemma clean_source_path_shape_witness :
  (_clean_source_path "webpack://src/App.js" = cleaned "webpack://src/App.js" /\
   _clean_source_path "webpack://src/App.js" <> EmptyString /\
   startswith (_clean_source_path "webpack://src/App.js") "." = false) /\
  (_clean_source_path "./.." = last_segment "./.." /\
   lstrip "." (_clean_source_path "./..") = EmptyString).
Proof.
  split.
  - apply (clean_source_path_shape "webpack://src/App.js").
    vm_compute. discriminate.
  - apply (clean_source_path_shape "./.."). vm_compute. reflexivity.
Defined.

(** C2, the claim as stated fails: the non-empty inputs "./" and "." are
    normalised to the empty string and to ".". *)
Lemma clean_source_path_can_be_empty :
  _clean_source_path "./" = "" /\
  _clean_source_path "." = "." /\
  ~ (forall p, p <> EmptyString ->
       _clean_source_path p <> EmptyString /\
       startswith (_clean_source_path p) "/" = false /\
       startswith (_clean_source_path p) "." = false).
Proof.
  split; [reflexivity|split; [reflexivity|]].
  intros H. destruct (H "./") as [Hne _]; [easy|]. now apply Hne.
Qed.

(** C3, as the code has it. 'webpack://my-app/./src/App.js' is normalised to
    'my-app/./src/App.js': the first part 'my-app' is neither a common
    pattern nor longer than 20 characters and is kept, and a './' inside the
    path is not removed. *)
Theorem scenario_a_keeps_project_folder :
  _clean_source_path "webpack://my-app/./src/App.js" = "my-app/./src/App.js".
Proof. reflexivity. Qed.

(** C3, the claim as stated fails: the result is not 'src/App.js'. *)
Lemma scenario_a_is_not_src_app :
  _clean_source_path "webpack://my-app/./src/App.js" <> "src/App.js".
Proof. vm_compute. discriminate. Qed.

(** C8. 'App.tsx' is normalised to 'src/App.tsx'; in general a bare filename
    (no '/') that starts with 'App.' or 'index.' is placed under 'src/'. *)
Theorem bare_entry_file_goes_to_src :
  _clean_source_path "App.tsx" = "src/App.tsx" /\
  forall name : string,
    contains "/" name = false ->
    startswith_any name ["App."; "index."] = true ->
    _clean_source_path name = "src/" +:+ name.
Proof.
  split; [reflexivity|]. intros name Hs Hentry.
  assert (exists c r, name = String c r /\
            Ascii.eqb c "." = false /\ Ascii.eqb c "/" = false)
    as (c & r & -> & Hdot & Hslash).
  { unfold startswith_any in Hentry. cbn [existsb] in Hentry.
    rewrite orb_false_r in Hentry.
    apply orb_prop in Hentry as [H|H]; apply startswith_spec in H;
      rewrite H; simpl; eauto. }
  assert (remove_webpack_prefix (String c r) = String c r) as Hr.
  { unfold remove_webpack_prefix.
    destruct (startswith (String c r) "webpack://") eqn:E; [|reflexivity].
    apply startswith_spec in E. rewrite E in Hs. simpl in Hs. easy. }
  assert (handle_path_patterns (String c r) = String c r) as Hh.
  { unfold handle_path_patterns. rewrite Hs.
    destruct (startswith (String c r) "./") eqn:E; [|reflexivity].
    apply startswith_spec in E. rewrite E in Hs. simpl in Hs. easy. }
  assert (strip_leading (String c r) = String c r) as Hl.
  { rewrite strip_leading_lstrip. apply lstrip_id.
    cbn [char_in]. now rewrite Hdot, Hslash. }
  unfold _clean_source_path, cleaned. rewrite Hr, Hh, Hl.
  unfold infer_folder. rewrite Hs, Hentry. reflexivity.
Qed.

Lemma bare_entry_file_goes_to_src_witness :
  _clean_source_path "index.js" = "src/" +:+ "index.js".
Proof.
  apply (proj2 bare_entry_file_goes_to_src "index.js"); reflexivity.
Defined.

(** C10, as the code has it. Normalising a normalised path changes nothing
    when that path neither starts with 'webpack://' nor has a first part that
    the project-name step skips ('src', '.', '..' or longer than 20
    characters, without one of the five extensions). *)
Theorem clean_source_path_idempotent_on_kept_paths (p : string) :
  startswith (_clean_source_path p) "webpack://" = false ->
  first_part_skipped (_clean_source_path p) = false ->
  _clean_source_path (_clean_source_path p) = _clean_source_path p.
Proof.
  destruct (String.string_dec (cleaned p) EmptyString) as [E|Hne].
  { destruct (clean_when_fallback p E) as [-> Hdots]. intros _ _.
    now apply clean_dots. }
  rewrite (clean_when_cleaned p Hne). unfold cleaned in *.
  set (b := handle_path_patterns (remove_webpack_prefix p)) in *.
  destruct (strip_leading_head b) as [E|(c & r & E & Hdot & Hslash)];
    rewrite E in *; [now destruct Hne|].
  set (t := String c r) in *.
  assert (Hfix : forall q, infer_folder t = q ->
            startswith q "webpack://" = false ->
            first_part_skipped q = false ->
            (contains "/" q = true \/ q = t) ->
            (exists c' r', q = String c' r' /\
               Ascii.eqb c' "." = false /\ Ascii.eqb c' "/" = false) ->
            _clean_source_path q = q).
  { intros q Hq Hweb Hskip Hcase (c' & r' & Eq & Hdot' & Hslash').
    assert (remove_webpack_prefix q = q) as Hr.
    { unfold remove_webpack_prefix. now rewrite Hweb. }
    assert (handle_path_patterns q = q) as Hh.
    { unfold handle_path_patterns.
      assert (startswith q "./" = false) as ->.
      { rewrite Eq. cbn [startswith]. now rewrite Ascii.eqb_sym, Hdot'. }
      unfold first_part_skipped in Hskip.
      destruct (contains "/" q); [|reflexivity]. cbv zeta.
      destruct (looks_like_project_name _); [|reflexivity].
      destruct (project_name_to_skip _); [easy|reflexivity]. }
    assert (strip_leading q = q) as Hl.
    { rewrite strip_leading_lstrip, Eq. apply lstrip_id.
      cbn [char_in]. now rewrite Hdot', Hslash'. }
    assert (infer_folder q = q) as Hi.
    { destruct Hcase as [Hs| ->]; [|exact Hq].
      unfold infer_folder. now rewrite Hs. }
    unfold _clean_source_path, cleaned. rewrite Hr, Hh, Hl, Hi.
    rewrite Eq. reflexivity. }
  intros Hweb Hskip.
  destruct (infer_folder_cases t) as [Ht|[Hs [Ht|[Ht|Ht]]]].
  - apply Hfix; try easy.
    + rewrite Ht. now right.
    + rewrite Ht. exists c, r. easy.
  - rewrite Ht in Hskip. now rewrite src_first_part_skipped in Hskip.
  - rewrite Ht in Hskip.
    change ("src/components/" +:+ t) with ("src/" +:+ ("components/" +:+ t)) in Hskip.
    now rewrite src_first_part_skipped in Hskip.
  - rewrite Ht in Hskip.
    change ("src/styles/" +:+ t) with ("src/" +:+ ("styles/" +:+ t)) in Hskip.
    now rewrite src_first_part_skipped in Hskip.
Qed.

Lemma clean_source_path_idempotent_on_kept_paths_witness :
  _clean_source_path (_clean_source_path "webpack://my-app/./src/App.js") =
  _clean_source_path "webpack://my-app/./src/App.js".
Proof.
  apply (clean_source_path_idempotent_on_kept_paths
           "webpack://my-app/./src/App.js"); reflexivity.
Defined.

(** C10, the claim as stated fails: 'a.css' is normalised to
    'src/styles/a.css', and that path to 'styles/a.css'. *)
Lemma clean_source_path_not_idempotent :
  _clean_source_path "a.css" = "src/styles/a.css" /\
  _clean_source_path (_clean_source_path "a.css") = "styles/a.css" /\
  _clean_source_path (_clean_source_path "a.css") <> _clean_source_path "a.css".
Proof. split; [reflexivity|split; [reflexivity|discriminate]]. Qed.

End Normalisation.

(** ** The ledger *)

Module RunFacts.

Lemma path_seen_false p (l : list file_info) :
  path_seen p l = false <-> p ∉ path <$> l.
Proof.
  unfold path_seen. induction l as [|f l IH]; simpl.
  - split; [intros _; apply not_elem_of_nil|reflexivity].
  - rewrite not_elem_of_cons, orb_false_iff, IH, String.eqb_neq.
    split; intros [H1 H2]; split; auto.
Qed.

Lemma path_seen_true p (l : list file_info) :
  path_seen p l = true <-> p ∈ path <$> l.
Proof.
  destruct (path_seen p l) eqn:E.
  - split; [intros _|reflexivity].
    destruct (decide (p ∈ path <$> l)) as [|Hn]; [assumption|].
    apply path_seen_false in Hn. congruence.
  - apply path_seen_false in E. split; [discriminate|contradiction].
Qed.

Lemma NoDup_paths_snoc (l : list file_info) f :
  path_seen (path f) l = false ->
  NoDup (path <$> l) -> NoDup (path <$> (l ++ [f])).
Proof.
  intros Hfresh Hnd. rewrite fmap_app. apply NoDup_app.
  split; [assumption|]. split.
  - intros p Hp Hin. apply list_elem_of_singleton in Hin. subst p.
    apply path_seen_false in Hfresh. contradiction.
  - apply NoDup_singleton.
Qed.

Lemma sublist_fst_zip {A B} (xs : list A) (ys : list B) :
  (zip xs ys).*1 `sublist_of` xs.
Proof.
  revert ys. induction xs as [|x xs IH]; intros [|y ys]; simpl.
  - constructor.
  - constructor.
  - apply sublist_nil_l.
  - apply sublist_skip, IH.
Qed.

(** A loop whose body leaves the ledger alone or appends one record with a
    path not seen before. [origin] recovers the loop item a record was made
    from, [Q] is what the body guarantees about the record. *)
Section Loop.
Context {A : Type} (origin : file_info -> A) (Q : file_info -> Prop).
Context (body : A -> Run unit).

Hypothesis appends_fresh :
  forall x l,
    fst (body x l) = l \/
    exists f, fst (body x l) = l ++ [f] /\
              path_seen (path f) l = false /\ origin f = x /\ Q f.

Lemma for_each_appends :
  forall xs l, exists ext,
    fst (for_each body xs l) = l ++ ext /\
    origin <$> ext `sublist_of` xs /\
    Forall Q ext /\
    (NoDup (path <$> l) -> NoDup (path <$> (l ++ ext))).
Proof.
  intros xs. induction xs as [|x xs IH]; intros l.
  - exists []. rewrite app_nil_r. simpl. repeat split; auto.
  - cbn [for_each]. unfold bind at 1.
    destruct (appends_fresh x l) as [Hsame|(f & Hadd & Hfresh & Hor & HQ)].
    + destruct (body x l) as [l' [u|e]]; simpl in Hsame; subst l'.
      * destruct (IH l) as (ext & -> & Hsub & HF & Hnd).
        exists ext. repeat split; auto. now apply sublist_cons.
      * exists []. rewrite app_nil_r. simpl. repeat split; auto.
        apply sublist_nil_l.
    + destruct (body x l) as [l' [u|e]]; simpl in Hadd; subst l'.
      * destruct (IH (l ++ [f])) as (ext & -> & Hsub & HF & Hnd).
        exists (f :: ext). rewrite <- app_assoc. simpl.
        repeat split; auto.
        -- rewrite Hor. now apply sublist_skip.
        -- intros Hl. specialize (Hnd (NoDup_paths_snoc l f Hfresh Hl)).
           now rewrite <- app_assoc in Hnd.
      * exists [f]. simpl. repeat split; auto.
        -- rewrite Hor. apply sublist_skip, sublist_nil_l.
        -- now apply NoDup_paths_snoc.
Qed.
End Loop.

Lemma dict_get_in key items :
  existsb (fun kv : string * json => String.eqb (fst kv) key) items = true ->
  exists v, dict_get key items = Some v.
Proof.
  unfold dict_get. induction items as [|[k v] items IH]; simpl; [easy|].
  destruct (String.eqb k key); simpl; eauto.
Qed.

Lemma dict_get_not_in key items :
  existsb (fun kv : string * json => String.eqb (fst kv) key) items = false ->
  dict_get key items = None.
Proof.
  unfold dict_get. induction items as [|[k v] items IH]; simpl; [easy|].
  destruct (String.eqb k key); simpl; [easy|auto].
Qed.

Lemma dict_get_Some_in key items v :
  dict_get key items = Some v ->
  existsb (fun kv : string * json => String.eqb (fst kv) key) items = true.
Proof.
  intros H. destruct (existsb _ items) eqn:E; [reflexivity|].
  apply dict_get_not_in in E. congruence.
Qed.

Lemma dict_get_None_in key items :
  dict_get key items = None ->
  existsb (fun kv : string * json => String.eqb (fst kv) key) items = false.
Proof.
  intros H. destruct (existsb _ items) eqn:E; [|reflexivity].
  apply dict_get_in in E as [v E]. congruence.
Qed.

End RunFacts.

Section Ledger.
Import RunFacts ReactSourceDownloader.

Context (json_loads : string -> result json) (base_url : string).
Context (quote : string -> option string).
Context (session_get : string -> option response).

#[local] Abbreviation devserver_entry := (ReactSourceDownloader.devserver_entry base_url quote session_get).
#[local] Abbreviation parse_loaded := (ReactSourceDownloader.parse_loaded base_url quote session_get).
#[local] Abbreviation _parse_source_map :=
  (ReactSourceDownloader._parse_source_map json_loads base_url quote session_get).
#[local] Abbreviation try_map_urls :=
  (ReactSourceDownloader.try_map_urls json_loads base_url quote session_get).
#[local] Abbreviation _analyze_source_maps :=
  (ReactSourceDownloader._analyze_source_maps json_loads base_url quote session_get).

Lemma sourcemap_entry_step x l :
  fst (sourcemap_entry x l) = l \/
  exists f, fst (sourcemap_entry x l) = l ++ [f] /\
    path_seen (path f) l = false /\
    (JStr (original_path f), content f) = x /\
    (content f <> JNull /\
     path f = _clean_source_path (original_path f) /\
     type f = _determine_file_type (path f) /\
     source f = "sourcemap").
Proof.
  destruct x as [sp c]. unfold sourcemap_entry.
  destruct (is_None c) eqn:Hc; [now left|].
  destruct sp as [| | |s| |]; try (now left).
  unfold bind, lift, as_str, discovered_files, append, ret.
  destruct (passes_skip_filter _ s); [|now left].
  destruct (path_seen _ l) eqn:Hseen; [now left|]. right.
  eexists. split; [reflexivity|]. simpl. repeat split; auto.
  intros ->. discriminate.
Qed.

Lemma sourcemap_entry_seen s c l :
  path_seen (_clean_source_path s) l = true ->
  sourcemap_entry (JStr s, c) l = (l, Ok tt).
Proof.
  intros Hseen. unfold sourcemap_entry.
  destruct (is_None c); [reflexivity|].
  unfold bind, lift, as_str, discovered_files, append, ret.
  destruct (passes_skip_filter _ s); [|reflexivity].
  now rewrite Hseen.
Qed.

Lemma sourcemap_entry_str s c l : snd (sourcemap_entry (JStr s, c) l) = Ok tt.
Proof.
  unfold sourcemap_entry. destruct (is_None c); [reflexivity|].
  unfold bind, lift, as_str, discovered_files, append, ret.
  destruct (passes_skip_filter _ s); [|reflexivity].
  destruct (path_seen _ l); reflexivity.
Qed.

Lemma devserver_entry_step x l :
  fst (devserver_entry x l) = l \/
  exists f, fst (devserver_entry x l) = l ++ [f] /\
    path_seen (path f) l = false /\
    JStr (original_path f) = x /\
    (path f = _clean_source_path (original_path f) /\
     type f = _determine_file_type (path f) /\
     source f = "webpack-dev-server").
Proof.
  unfold devserver_entry.
  destruct x as [| | |s| |]; try (now left).
  unfold bind, lift, as_str, discovered_files, append, ret.
  destruct (Str.truthy _); [|now left].
  destruct (Str.contains _ _); [now left|].
  destruct (path_seen _ l) eqn:Hseen; [now left|]. cbn [negb andb].
  destruct (_fetch_from_webpack_dev_server _ _ _ s) as [t|]; [|now left].
  destruct (Str.truthy t); [|now left]. right.
  eexists. split; [reflexivity|]. simpl. repeat split; auto.
Qed.

Lemma devserver_entry_seen s l :
  path_seen (_clean_source_path s) l = true ->
  devserver_entry (JStr s) l = (l, Ok tt).
Proof.
  intros Hseen. unfold devserver_entry.
  unfold bind, lift, as_str, discovered_files, append, ret.
  rewrite Hseen. now rewrite !andb_false_r.
Qed.

Lemma devserver_entry_str s l : snd (devserver_entry (JStr s) l) = Ok tt.
Proof.
  unfold devserver_entry.
  unfold bind, lift, as_str, discovered_files, append, ret.
  destruct (_ && _); [|reflexivity].
  destruct (_fetch_from_webpack_dev_server _ _ _ s) as [t|]; [|reflexivity].
  destruct (Str.truthy t); reflexivity.
Qed.

(** A loop over strings raises nothing. *)
Lemma for_each_strings {A} (body : A -> Run unit) (xs : list A) :
  Forall (fun x => forall l, snd (body x l) = Ok tt) xs ->
  forall l, snd (for_each body xs l) = Ok tt.
Proof.
  induction 1 as [|x xs Hx _ IH]; intros l; [reflexivity|].
  cbn [for_each]. unfold bind. specialize (Hx l).
  destruct (body x l) as [l' [[]|e]]; simpl in Hx; [apply IH|discriminate].
Qed.

(** The three shapes of the [try] block on a dict. *)
Lemma parse_loaded_with_content items srcs cnts l :
  dict_get "sources" items = Some srcs ->
  dict_get "sourcesContent" items = Some cnts ->
  parse_loaded (JObj items) l =
  (_ <- lift (py_len srcs) ;;
   entries <- lift (py_zip srcs cnts) ;;
   for_each sourcemap_entry entries) l.
Proof.
  intros Hs Hc. unfold parse_loaded, has_sources_and_content, py_in, py_getitem.
  rewrite (dict_get_Some_in _ _ _ Hs), (dict_get_Some_in _ _ _ Hc), Hs, Hc.
  reflexivity.
Qed.

Lemma parse_loaded_without_content items srcs l :
  dict_get "sources" items = Some srcs ->
  dict_get "sourcesContent" items = None ->
  parse_loaded (JObj items) l =
  (entries <- lift (py_iter srcs) ;; for_each devserver_entry entries) l.
Proof.
  intros Hs Hc. unfold parse_loaded, has_sources_and_content, py_in, py_getitem.
  rewrite (dict_get_Some_in _ _ _ Hs), (dict_get_None_in _ _ Hc), Hs.
  reflexivity.
Qed.

Lemma parse_loaded_no_sources items l :
  dict_get "sources" items = None ->
  parse_loaded (JObj items) l = (l, Ok tt).
Proof.
  intros Hs. unfold parse_loaded, has_sources_and_content, py_in.
  rewrite (dict_get_None_in _ _ Hs). reflexivity.
Qed.

Lemma parse_loaded_not_dict v l :
  (forall items, v <> JObj items) -> fst (parse_loaded v l) = l.
Proof.
  intros Hv. unfold parse_loaded, has_sources_and_content.
  destruct v as [| | |s|elements|items]; try reflexivity.
  - unfold py_in, bind, lift.
    destruct (Str.contains "sources" s); simpl;
      [destruct (Str.contains "sourcesContent" s); reflexivity|reflexivity].
  - unfold py_in, bind, lift.
    destruct (existsb (is_str "sources") elements); simpl;
      [destruct (existsb (is_str "sourcesContent") elements); reflexivity
      |reflexivity].
  - now destruct (Hv items).
Qed.

Lemma sourcemap_loop entries l :
  exists ext,
    fst (for_each sourcemap_entry entries l) = l ++ ext /\
    (fun f => (JStr (original_path f), content f)) <$> ext `sublist_of` entries /\
    Forall (fun f => content f <> JNull /\
                     path f = _clean_source_path (original_path f) /\
                     type f = _determine_file_type (path f) /\
                     source f = "sourcemap") ext /\
    (NoDup (path <$> l) -> NoDup (path <$> (l ++ ext))).
Proof. apply for_each_appends. intros x l'. apply sourcemap_entry_step. Qed.

Lemma devserver_loop entries l :
  exists ext,
    fst (for_each devserver_entry entries l) = l ++ ext /\
    (fun f => JStr (original_path f)) <$> ext `sublist_of` entries /\
    Forall (fun f => path f = _clean_source_path (original_path f) /\
                     type f = _determine_file_type (path f) /\
                     source f = "webpack-dev-server") ext /\
    (NoDup (path <$> l) -> NoDup (path <$> (l ++ ext))).
Proof. apply for_each_appends. intros x l'. apply devserver_entry_step. Qed.

(** Whatever was loaded, the [try] block only appends, never repeats a
    path, and appends in the order of the 'sources' list. *)
Lemma parse_loaded_grows v l :
  exists ext,
    fst (parse_loaded v l) = l ++ ext /\
    (NoDup (path <$> l) -> NoDup (path <$> (l ++ ext))) /\
    (forall items srcs, v = JObj items ->
       dict_get "sources" items = Some (JArr srcs) ->
       (fun f => JStr (original_path f)) <$> ext `sublist_of` srcs).
Proof.
  assert (Hnone : fst (parse_loaded v l) = l -> exists ext,
    fst (parse_loaded v l) = l ++ ext /\
    (NoDup (path <$> l) -> NoDup (path <$> (l ++ ext))) /\
    (forall items srcs, v = JObj items ->
       dict_get "sources" items = Some (JArr srcs) ->
       (fun f => JStr (original_path f)) <$> ext `sublist_of` srcs)).
  { intros E. exists []. rewrite app_nil_r. repeat split; auto.
    intros. apply sublist_nil_l. }
  destruct v as [| | | | |items];
    try (apply Hnone, parse_loaded_not_dict; discriminate).
  destruct (dict_get "sources" items) as [srcs|] eqn:Hs;
    [|apply Hnone; now rewrite parse_loaded_no_sources].
  destruct (dict_get "sourcesContent" items) as [cnts|] eqn:Hc.
  - rewrite (parse_loaded_with_content _ _ _ _ Hs Hc) in *.
    unfold bind, lift in *.
    destruct (py_len srcs); [|now apply Hnone].
    destruct (py_zip srcs cnts) as [entries|] eqn:Hz; [|now apply Hnone].
    destruct (sourcemap_loop entries l) as (ext & Hext & Hsub & _ & Hnd).
    exists ext. repeat split; auto.
    intros items' srcs' [= <-] Hs'. rewrite Hs in Hs'. injection Hs' as ->.
    unfold py_zip in Hz. simpl in Hz.
    destruct (py_iter cnts) as [ys|]; [|discriminate].
    injection Hz as <-.
    apply (fmap_sublist fst) in Hsub.
    rewrite <- list_fmap_compose in Hsub.
    etransitivity; [exact Hsub|apply sublist_fst_zip].
  - rewrite (parse_loaded_without_content _ _ _ Hs Hc) in *.
    unfold bind, lift in *.
    destruct (py_iter srcs) as [entries|] eqn:Hi; [|now apply Hnone].
    destruct (devserver_loop entries l) as (ext & Hext & Hsub & _ & Hnd).
    exists ext. repeat split; auto.
    intros items' srcs' [= <-] Hs'. rewrite Hs in Hs'. injection Hs' as ->.
    simpl in Hi. now injection Hi as <-.
Qed.

Lemma parse_source_map_fst map_content map_url l :
  fst (_parse_source_map map_content map_url l) =
  match json_loads map_content with
  | Ok source_map => fst (parse_loaded source_map l)
  | Raise _ => l
  end.
Proof.
  unfold ReactSourceDownloader._parse_source_map.
  destruct (json_loads map_content) as [v|e]; [|reflexivity].
  destruct (parse_loaded v l) as [l' [u|e]]; reflexivity.
Qed.

Lemma parse_source_map_grows map_content map_url l :
  exists ext,
    fst (_parse_source_map map_content map_url l) = l ++ ext /\
    (NoDup (path <$> l) -> NoDup (path <$> (l ++ ext))) /\
    (forall items srcs, json_loads map_content = Ok (JObj items) ->
       dict_get "sources" items = Some (JArr srcs) ->
       (fun f => JStr (original_path f)) <$> ext `sublist_of` srcs).
Proof.
  rewrite parse_source_map_fst.
  destruct (json_loads map_content) as [v|e].
  - destruct (parse_loaded_grows v l) as (ext & Hext & Hnd & Hsub).
    exists ext. repeat split; auto.
    intros items srcs [= ->]. now apply Hsub.
  - exists []. rewrite app_nil_r. repeat split; auto. discriminate.
Qed.

Lemma try_map_urls_grows map_urls l :
  l `prefix_of` try_map_urls map_urls l /\
  (NoDup (path <$> l) -> NoDup (path <$> try_map_urls map_urls l)).
Proof.
  induction map_urls as [|u rest IH]; simpl; [easy|].
  destruct (session_get u) as [r|]; [|exact IH].
  destruct (status_code r =? 200)%Z; [|exact IH].
  destruct (parse_source_map_grows (text r) u l) as (ext & -> & Hnd & _).
  split; [now exists ext|exact Hnd].
Qed.

Lemma analyze_source_maps_grows source_maps l :
  l `prefix_of` _analyze_source_maps source_maps l /\
  (NoDup (path <$> l) -> NoDup (path <$> _analyze_source_maps source_maps l)).
Proof.
  unfold ReactSourceDownloader._analyze_source_maps.
  revert l. induction source_maps as [|b rest IH]; intros l; simpl; [easy|].
  destruct (try_map_urls_grows (map_urls_of b) l) as [Hp Hnd].
  destruct (IH (try_map_urls (map_urls_of b) l)) as [Hp' Hnd'].
  split; [now transitivity (try_map_urls (map_urls_of b) l)|auto].
Qed.

(** C4. The ledger never holds two records with the same path. Each of the
    two insertion sites keeps the records already present where they are and
    keeps the paths pairwise distinct; a candidate whose normalised path is
    already in the ledger leaves the ledger as it was; so does a whole map,
    and a whole run that starts from the empty ledger. *)
Theorem ledger_first_seen_wins :
  (forall entry files, NoDup (path <$> files) ->
     files `prefix_of` fst (sourcemap_entry entry files) /\
     NoDup (path <$> fst (sourcemap_entry entry files))) /\
  (forall entry files, NoDup (path <$> files) ->
     files `prefix_of` fst (devserver_entry entry files) /\
     NoDup (path <$> fst (devserver_entry entry files))) /\
  (forall source_path content files,
     path_seen (_clean_source_path source_path) files = true ->
     fst (sourcemap_entry (JStr source_path, content) files) = files /\
     fst (devserver_entry (JStr source_path) files) = files) /\
  (forall map_content map_url files, NoDup (path <$> files) ->
     files `prefix_of` fst (_parse_source_map map_content map_url files) /\
     NoDup (path <$> fst (_parse_source_map map_content map_url files))) /\
  (forall source_maps, NoDup (path <$> _analyze_source_maps source_maps [])).
Proof.
  repeat apply conj.
  - intros entry files Hnd.
    destruct (sourcemap_entry_step entry files)
      as [->|(f & -> & Hfresh & _)]; [easy|].
    split; [now exists [f]|now apply NoDup_paths_snoc].
  - intros entry files Hnd.
    destruct (devserver_entry_step entry files)
      as [->|(f & -> & Hfresh & _)]; [easy|].
    split; [now exists [f]|now apply NoDup_paths_snoc].
  - intros source_path content files Hseen.
    now rewrite sourcemap_entry_seen, devserver_entry_seen.
  - intros map_content map_url files Hnd.
    destruct (parse_source_map_grows map_content map_url files)
      as (ext & -> & Hnd' & _).
    split; [now exists ext|auto].
  - intros source_maps.
    apply (analyze_source_maps_grows source_maps []). constructor.
Qed.

(** C5. Bundles are processed one at a time in the order of
    [self.source_maps]; a map appends its records after everything already
    in the ledger, in the order of its 'sources' list; so a record present
    after the first bundles keeps its position, and every record added by the
    later bundles comes after it. *)
Theorem ledger_discovery_order :
  (forall maps1 maps2 files,
     _analyze_source_maps (maps1 ++ maps2) files =
     _analyze_source_maps maps2 (_analyze_source_maps maps1 files)) /\
  (forall map_content map_url files, exists ext,
     fst (_parse_source_map map_content map_url files) = files ++ ext /\
     forall items srcs,
       json_loads map_content = Ok (JObj items) ->
       dict_get "sources" items = Some (JArr srcs) ->
       (fun f => JStr (original_path f)) <$> ext `sublist_of` srcs) /\
  (forall maps1 maps2 files i j r1 r2,
     _analyze_source_maps maps1 files !! i = Some r1 ->
     _analyze_source_maps (maps1 ++ maps2) files !! j = Some r2 ->
     _analyze_source_maps maps1 files !! j = None ->
     _analyze_source_maps (maps1 ++ maps2) files !! i = Some r1 /\ i < j).
Proof.
  assert (Hseq : forall maps1 maps2 files,
     _analyze_source_maps (maps1 ++ maps2) files =
     _analyze_source_maps maps2 (_analyze_source_maps maps1 files)).
  { intros. unfold ReactSourceDownloader._analyze_source_maps. apply fold_left_app. }
  repeat apply conj.
  - exact Hseq.
  - intros map_content map_url files.
    destruct (parse_source_map_grows map_content map_url files)
      as (ext & Hext & _ & Hsub).
    exists ext. auto.
  - intros maps1 maps2 files i j r1 r2 H1 H2 Hnew.
    rewrite Hseq in *.
    destruct (analyze_source_maps_grows maps2 (_analyze_source_maps maps1 files))
      as [Hpre _].
    split.
    + eapply prefix_lookup_Some; eassumption.
    + apply lookup_lt_Some in H1. apply lookup_ge_None in Hnew. lia.
Qed.

Lemma zip_take_min {A B} (xs : list A) (ys : list B) :
  zip xs ys =
  zip (take (length xs `min` length ys) xs) (take (length xs `min` length ys) ys).
Proof.
  revert ys. induction xs as [|x xs IH]; intros [|y ys]; simpl; try reflexivity.
  f_equal. apply IH.
Qed.

(** The condition written for the sourcemap branch lets every path through
    unless the original path names a dev-server module: the [or] makes its
    right operand sufficient. *)
Lemma skip_filter_right_operand clean_path source_path :
  existsb (fun skip => Str.contains skip (Str.lower source_path))
    ["webpack-dev-server"; "hot-dev-server"; "webpack/hot"] = false ->
  passes_skip_filter clean_path source_path = true.
Proof. intros H. unfold passes_skip_filter. rewrite H. apply orb_true_r. Qed.

(** C1, evaluated on the code. A map whose sources are the vendor path
    'webpack://my-app/node_modules/react/index.js' and the multi-entry path
    'multi ./src/index.js', both with content, appends a record for each of
    them to an empty ledger. *)
Theorem vendor_and_multi_entries_are_recorded :
  parse_loaded
    (JObj [("sources", JArr [JStr "webpack://my-app/node_modules/react/index.js";
                             JStr "multi ./src/index.js"]);
           ("sourcesContent", JArr [JStr "x"; JStr "y"])]) [] =
  ([ {| path := "my-app/node_modules/react/index.js";
        content := JStr "x";
        type := "js";
        source := "sourcemap";
        original_path := "webpack://my-app/node_modules/react/index.js" |};
     {| path := "multi ./src/index.js";
        content := JStr "y";
        type := "js";
        source := "sourcemap";
        original_path := "multi ./src/index.js" |} ],
   Ok tt).
Proof. reflexivity. Qed.

(** C6, as the code has it. When [json.loads] raises, [_parse_source_map]
    catches the exception itself and leaves the ledger as it was. A dict
    without 'sources' raises nothing and leaves the ledger as it was. A dict
    whose 'sources' is a list of strings, with no 'sourcesContent' or with a
    list for it, raises nothing. Whatever the payload, the records already in
    the ledger stay, and a bundle whose map does not load is passed over: the
    run goes on with the next bundle. *)
Theorem malformed_map_is_skipped :
  (forall map_content map_url files e,
     json_loads map_content = Raise e ->
     _parse_source_map map_content map_url files = (files, Some e)) /\
  (forall map_content map_url files items,
     json_loads map_content = Ok (JObj items) ->
     dict_get "sources" items = None ->
     _parse_source_map map_content map_url files = (files, None)) /\
  (forall map_content map_url files items srcs,
     json_loads map_content = Ok (JObj items) ->
     dict_get "sources" items = Some (JArr srcs) ->
     Forall (fun v => exists s, v = JStr s) srcs ->
     (dict_get "sourcesContent" items = None \/
      exists cnts, dict_get "sourcesContent" items = Some (JArr cnts)) ->
     snd (_parse_source_map map_content map_url files) = None) /\
  (forall map_content map_url files,
     files `prefix_of` fst (_parse_source_map map_content map_url files)) /\
  (forall bundle_url rest files r e,
     session_get (bundle_url +:+ ".map") = Some r ->
     status_code r = 200%Z ->
     json_loads (text r) = Raise e ->
     _analyze_source_maps (bundle_url :: rest) files =
     _analyze_source_maps rest files).
Proof.
  repeat apply conj.
  - intros map_content map_url files e He.
    unfold ReactSourceDownloader._parse_source_map. now rewrite He.
  - intros map_content map_url files items Hload Hs.
    unfold ReactSourceDownloader._parse_source_map.
    now rewrite Hload, parse_loaded_no_sources.
  - intros map_content map_url files items srcs Hload Hs Hstr Hc.
    unfold ReactSourceDownloader._parse_source_map. rewrite Hload.
    assert (snd (parse_loaded (JObj items) files) = Ok tt) as Hok.
    { destruct Hc as [Hc|[cnts Hc]].
      - rewrite (parse_loaded_without_content _ _ _ Hs Hc).
        unfold bind, lift. simpl. apply for_each_strings.
        eapply Forall_impl; [exact Hstr|].
        intros v [s ->] l. apply devserver_entry_str.
      - rewrite (parse_loaded_with_content _ _ _ _ Hs Hc).
        unfold bind, lift. simpl. apply for_each_strings.
        apply Forall_forall. intros [v c] Hin l.
        apply elem_of_zip_l in Hin.
        rewrite Forall_forall in Hstr. destruct (Hstr v Hin) as [s ->].
        apply sourcemap_entry_str. }
    destruct (parse_loaded (JObj items) files) as [l' [[]|e]];
      simpl in Hok; [reflexivity|discriminate].
  - intros map_content map_url files.
    destruct (parse_source_map_grows map_content map_url files)
      as (ext & -> & _). now exists ext.
  - intros bundle_url rest files r e Hget Hstatus Hload.
    assert (try_map_urls (map_urls_of bundle_url) files = files) as Hskip.
    { unfold map_urls_of. cbn [ReactSourceDownloader.try_map_urls].
      rewrite Hget, Hstatus. cbn [Z.eqb Pos.eqb].
      unfold ReactSourceDownloader._parse_source_map. now rewrite Hload. }
    change (_analyze_source_maps (bundle_url :: rest) files)
      with (_analyze_source_maps rest (try_map_urls (map_urls_of bundle_url) files)).
    now rewrite Hskip.
Qed.

(** C7. An entry paired with [null] appends nothing; the map of scenario D
    appends exactly one record, for 'a.js' with 'contentA'; and in general
    every record a map with both lists appends carries a content that is not
    [null], paired in the map with the record's original path. *)
Theorem absent_content_yields_no_record :
  (forall source_path files,
     sourcemap_entry (source_path, JNull) files = (files, Ok tt)) /\
  parse_loaded
    (JObj [("sources", JArr [JStr "a.js"; JStr "b.js"]);
           ("sourcesContent", JArr [JStr "contentA"; JNull])]) [] =
  ([ {| path := "a.js";
        content := JStr "contentA";
        type := "js";
        source := "sourcemap";
        original_path := "a.js" |} ],
   Ok tt) /\
  (forall items srcs cnts files,
     dict_get "sources" items = Some (JArr srcs) ->
     dict_get "sourcesContent" items = Some (JArr cnts) ->
     exists ext,
       fst (parse_loaded (JObj items) files) = files ++ ext /\
       Forall (fun f => content f <> JNull) ext /\
       (fun f => (JStr (original_path f), content f)) <$> ext
         `sublist_of` zip srcs cnts).
Proof.
  repeat apply conj; [reflexivity|reflexivity|].
  intros items srcs cnts files Hs Hc.
  rewrite (parse_loaded_with_content _ _ _ _ Hs Hc).
  unfold bind, lift. simpl.
  destruct (sourcemap_loop (zip srcs cnts) files) as (ext & Hext & Hsub & HQ & _).
  exists ext. repeat split; auto.
  eapply Forall_impl; [exact HQ|]. now intros f [H _].
Qed.

(** C9. With 'sources' and 'sourcesContent' lists of any two lengths, the
    map is read as if both lists were cut to the shorter length: the length
    mismatch raises nothing, a map whose sources are strings raises nothing
    at all, and every record appended comes from a position below both
    lengths. *)
Theorem unequal_lengths_truncate :
  forall items srcs cnts files,
    dict_get "sources" items = Some (JArr srcs) ->
    dict_get "sourcesContent" items = Some (JArr cnts) ->
    let n := length srcs `min` length cnts in
    parse_loaded (JObj items) files =
      for_each sourcemap_entry (zip (take n srcs) (take n cnts)) files /\
    (Forall (fun v => exists s, v = JStr s) srcs ->
     snd (parse_loaded (JObj items) files) = Ok tt) /\
    exists ext,
      fst (parse_loaded (JObj items) files) = files ++ ext /\
      forall f, f ∈ ext ->
        exists i, i < n /\
          srcs !! i = Some (JStr (original_path f)) /\
          cnts !! i = Some (content f).
Proof.
  intros items srcs cnts files Hs Hc n.
  rewrite (parse_loaded_with_content _ _ _ _ Hs Hc).
  unfold bind, lift. simpl. fold n. repeat apply conj.
  - unfold n. now rewrite <- zip_take_min.
  - intros Hstr. apply for_each_strings.
    apply Forall_forall. intros [v c] Hin l.
    apply elem_of_zip_l in Hin.
    rewrite Forall_forall in Hstr. destruct (Hstr v Hin) as [s ->].
    apply sourcemap_entry_str.
  - destruct (sourcemap_loop (zip srcs cnts) files) as (ext & Hext & Hsub & _).
    exists ext. split; [exact Hext|]. intros f Hf.
    apply sublist_subseteq in Hsub.
    assert ((JStr (original_path f), content f) ∈ zip srcs cnts) as Hin.
    { apply Hsub. apply (list_elem_of_fmap_2 (fun f => (JStr (original_path f), content f))), Hf. }
    apply list_elem_of_lookup in Hin as [i Hi].
    apply lookup_zip_with_Some in Hi as (x & y & [= <- <-] & Hx & Hy).
    exists i. repeat split; auto.
    apply lookup_lt_Some in Hx. apply lookup_lt_Some in Hy. unfold n. lia.
Qed.

End Ledger.

(** ** The properties on the sample run *)

Module SampleRun.
Import ReactSourceDownloader Sample.

Lemma ledger_first_seen_wins_witness :
  (NoDup (path <$> fst (sourcemap_entry (JStr "b.js", JStr "contentB") [record_a])) /\
   NoDup (path <$> fst (devserver_entry base_url quote session_get
                          (JStr "webpack://src/App.js") [record_a]))) /\
  (fst (sourcemap_entry (JStr "a.js", JStr "other") [record_a]) = [record_a] /\
   NoDup (path <$> fst (_parse_source_map json_loads base_url quote session_get
                          "map b" "http://localhost:3000/b.js.map" [record_a]))).
Proof.
  pose proof (ledger_first_seen_wins json_loads base_url quote session_get)
    as (Hsm & Hds & Hdup & Hmap & _).
  assert (NoDup (path <$> [record_a])) as Hnd by apply NoDup_singleton.
  repeat apply conj.
  - apply (Hsm _ _ Hnd).
  - apply (Hds _ _ Hnd).
  - apply (Hdup "a.js" (JStr "other") [record_a]). reflexivity.
  - apply (Hmap _ _ _ Hnd).
Defined.

Lemma ledger_discovery_order_witness :
  (exists ext,
     fst (_parse_source_map json_loads base_url quote session_get
            "map b" "http://localhost:3000/b.js.map" [record_a]) =
       [record_a] ++ ext /\
     (fun f => JStr (original_path f)) <$> ext
       `sublist_of` [JStr "a.js"; JStr "b.js"; JStr "c.js"]) /\
  (_analyze_source_maps json_loads base_url quote session_get
     (["http://localhost:3000/a.js"] ++ ["http://localhost:3000/b.js"]) []
     !! 0 = Some record_a /\ 0 < 1).
Proof.
  pose proof (ledger_discovery_order json_loads base_url quote session_get)
    as (_ & Hmap & Horder).
  split.
  - destruct (Hmap "map b" "http://localhost:3000/b.js.map" [record_a])
      as (ext & Hext & Hsub).
    exists ext. split; [exact Hext|].
    apply (Hsub _ _ eq_refl). reflexivity.
  - apply (Horder ["http://localhost:3000/a.js"] ["http://localhost:3000/b.js"]
             [] 0 1 record_a record_b); reflexivity.
Defined.

Lemma malformed_map_is_skipped_witness :
  _parse_source_map json_loads base_url quote session_get
    "<html>" "http://localhost:3000/c.js.map" [record_a] =
    ([record_a], Some JSONDecodeError) /\
  _parse_source_map json_loads base_url quote session_get
    "{}" "http://localhost:3000/e.js.map" [record_a] = ([record_a], None) /\
  snd (_parse_source_map json_loads base_url quote session_get
         "map b" "http://localhost:3000/b.js.map" [record_a]) = None /\
  _analyze_source_maps json_loads base_url quote session_get
    ("http://localhost:3000/c.js" :: ["http://localhost:3000/b.js"]) [record_a] =
  _analyze_source_maps json_loads base_url quote session_get
    ["http://localhost:3000/b.js"] [record_a].
Proof.
  pose proof (malformed_map_is_skipped json_loads base_url quote session_get)
    as (Hraise & Hnone & Hok & _ & Hskip).
  repeat apply conj.
  - apply Hraise. reflexivity.
  - apply (Hnone _ _ _ []); reflexivity.
  - apply (Hok "map b" _ [record_a] _ [JStr "a.js"; JStr "b.js"; JStr "c.js"] eq_refl);
      [reflexivity| |right; eexists; reflexivity].
    repeat constructor; eexists; reflexivity.
  - apply (Hskip _ _ _ {| status_code := 200; text := "<html>" |} JSONDecodeError);
      reflexivity.
Defined.

Lemma absent_content_yields_no_record_witness :
  exists ext,
    fst (parse_loaded base_url quote session_get map_a [record_b]) =
      [record_b] ++ ext /\
    Forall (fun f => content f <> JNull) ext /\
    (fun f => (JStr (original_path f), content f)) <$> ext
      `sublist_of` zip [JStr "a.js"; JStr "b.js"] [JStr "contentA"; JNull].
Proof.
  apply (proj2 (proj2 (absent_content_yields_no_record base_url quote session_get)));
    reflexivity.
Defined.

Lemma unequal_lengths_truncate_witness :
  parse_loaded base_url quote session_get map_b [] =
    for_each sourcemap_entry
      (zip (take 2 [JStr "a.js"; JStr "b.js"; JStr "c.js"])
           (take 2 [JStr "other"; JStr "contentB"])) [] /\
  snd (parse_loaded base_url quote session_get map_b []) = Ok tt.
Proof.
  destruct (unequal_lengths_truncate base_url quote session_get
              [("sources", JArr [JStr "a.js"; JStr "b.js"; JStr "c.js"]);
               ("sourcesContent", JArr [JStr "other"; JStr "contentB"])]
              [JStr "a.js"; JStr "b.js"; JStr "c.js"]
              [JStr "other"; JStr "contentB"] [] eq_refl eq_refl)
    as (Htrunc & Hok & _).
  split; [exact Htrunc|]. apply Hok.
  repeat constructor; eexists; reflexivity.
Defined.

(** C6, the claim as stated fails. A payload that loads to a dict without
    'sources' raises no error, and a payload that loads to a dict with a
    'sources' list raises [TypeError] when 'sourcesContent' is a number. *)
Lemma missing_sources_raises_nothing :
  _parse_source_map json_loads base_url quote session_get
    "{}" "http://localhost:3000/e.js.map" [] = ([], None) /\
  _parse_source_map
    (fun _ => Ok (JObj [("sources", JArr [JStr "a.js"]);
                        ("sourcesContent", JNum "5")]))
    base_url quote session_get
    "map" "http://localhost:3000/e.js.map" [] = ([], Some TypeError).
Proof. split; reflexivity. Qed.

End SampleRun.

(** ** More on path normalisation *)

Module CleanMore.
Import Str StrFacts CleanFacts.

#[local] Arguments String.append : simpl nomatch.

Lemma not_dot_slash c :
  Ascii.eqb c "." = false -> Ascii.eqb c "/" = false -> char_in c "./" = false.
Proof. intros H1 H2. cbn [char_in]. now rewrite H1, H2. Qed.

Lemma strip_leading_id c r :
  Ascii.eqb c "." = false -> Ascii.eqb c "/" = false ->
  strip_leading (String c r) = String c r.
Proof.
  intros H1 H2. rewrite strip_leading_lstrip.
  apply lstrip_id. now apply not_dot_slash.
Qed.

Lemma infer_folder_truthy c r : truthy (infer_folder (String c r)) = true.
Proof.
  apply truthy_true. intros E. apply infer_folder_empty in E. discriminate.
Qed.

Lemma contains_slash_append pre t :
  contains "/" pre = true -> contains "/" (pre +:+ t) = true.
Proof.
  induction pre as [|a pre IH]; [discriminate|].
  change (String a pre +:+ t) with (String a (pre +:+ t)).
  rewrite !contains_slash_cons.
  destruct (Ascii.eqb a "/"); [reflexivity|]. exact IH.
Qed.

Lemma no_slash_no_prefix s pre :
  contains "/" s = false -> contains "/" pre = true -> startswith s pre = false.
Proof.
  intros Hs Hpre. destruct (startswith s pre) eqn:E; [|reflexivity].
  apply startswith_spec in E. rewrite E in Hs.
  now rewrite contains_slash_append in Hs.
Qed.

Lemma lstrip_suffix chars s : exists pre, s = pre +:+ lstrip chars s.
Proof.
  induction s as [|c s [pre IH]]; [now exists EmptyString|]. cbn [lstrip].
  destruct (char_in c chars); [|now exists EmptyString].
  exists (String c pre). simpl. now f_equal.
Qed.

Lemma last_segment_suffix p : exists pre, p = pre +:+ last_segment p.
Proof.
  induction p as [|c p [pre IH]]; [now exists EmptyString|].
  destruct (Ascii.eqb_spec c "/") as [->|Hc].
  - exists (String "/" pre).
    change (String "/" p) with (EmptyString +:+ String "/" p) at 2.
    rewrite last_segment_append. simpl. now f_equal.
  - destruct (contains "/" p) eqn:Hs.
    + exists (String c pre).
      rewrite (slash_first_rest p Hs) at 2.
      change (String c (?a +:+ ?b)) with (String c a +:+ b).
      rewrite last_segment_append.
      rewrite (slash_first_rest p Hs) in IH at 2.
      rewrite last_segment_append in IH. simpl. now f_equal.
    + exists EmptyString. rewrite last_segment_no_slash; [reflexivity|].
      rewrite contains_slash_cons, Hs.
      apply Ascii.eqb_neq in Hc. now rewrite Hc.
Qed.

Lemma handle_suffix s : exists pre, s = pre +:+ handle_path_patterns s.
Proof.
  unfold handle_path_patterns.
  destruct (startswith s "./") eqn:E.
  { apply startswith_spec in E. now exists "./". }
  destruct (contains "/" s) eqn:Hs; [|now exists EmptyString]. cbv zeta.
  destruct (looks_like_project_name _); [|now exists EmptyString].
  destruct (project_name_to_skip _); [|now exists EmptyString].
  exists (hd EmptyString (split "/" s) +:+ "/").
  rewrite append_assoc. now apply slash_first_rest.
Qed.

Lemma remove_prefix_suffix s : exists pre, s = pre +:+ remove_webpack_prefix s.
Proof.
  unfold remove_webpack_prefix.
  destruct (startswith s "webpack://") eqn:E; [|now exists EmptyString].
  apply startswith_spec in E. now exists "webpack://".
Qed.

(** The first part is dropped: what "Handle different webpack path patterns"
    returns for [seg/rest] when [seg] is a part to skip. *)
Lemma handle_drops seg rest :
  contains "/" seg = false ->
  endswith_any seg [".js"; ".ts"; ".jsx"; ".tsx"; ".css"] = false ->
  in_list seg ["src"; "."; ".."] || (20 <? String.length seg) = true ->
  handle_path_patterns (seg +:+ String "/" rest) = rest.
Proof.
  intros Hseg Hext Hskip. unfold handle_path_patterns.
  destruct (startswith (seg +:+ String "/" rest) "./") eqn:E.
  { destruct seg as [|a [|b seg]].
    - discriminate.
    - change (startswith (String a (String "/" rest)) "./" = true) in E.
      cbn [startswith] in E. apply andb_prop in E as [E _].
      apply Ascii.eqb_eq in E. now subst a.
    - change (startswith (String a (String b (seg +:+ String "/" rest))) "./" = true) in E.
      cbn [startswith] in E. apply andb_prop in E as [_ [E _]%andb_prop].
      apply Ascii.eqb_eq in E. subst b.
      rewrite !contains_slash_cons in Hseg.
      apply orb_false_elim in Hseg as [_ [Hb _]%orb_false_elim].
      discriminate. }
  assert (contains "/" (seg +:+ String "/" rest) = true) as ->.
  { clear. induction seg as [|a seg IH]; [reflexivity|].
    change (String a seg +:+ String "/" rest)
      with (String a (seg +:+ String "/" rest)).
    rewrite contains_slash_cons, IH. apply orb_true_r. }
  cbv zeta. rewrite split_append, (no_slash_split seg Hseg).
  pose proof (split_nonempty "/" rest) as Hne.
  pose proof (join_split rest) as Hjoin.
  destruct (split "/" rest) as [|h t] eqn:Hsplit; [easy|].
  unfold looks_like_project_name, project_name_to_skip.
  cbn [app hd tl length]. rewrite Hext, Hskip. exact Hjoin.
Qed.

End CleanMore.

Section NormalisationMore.
Import Str StrFacts CleanFacts CleanMore.

#[local] Arguments String.append : simpl nomatch.

(** X1. The scheme prefix is transparent: a path that does not itself start
    with 'webpack://' is normalised to the same result with and without the
    prefix in front of it. *)
Theorem clean_scheme_prefix_transparent (p : string) :
  startswith p "webpack://" = false ->
  _clean_source_path ("webpack://" +:+ p) = _clean_source_path p.
Proof.
  intros Hp. unfold _clean_source_path, cleaned.
  assert (remove_webpack_prefix ("webpack://" +:+ p) = p) as Hl.
  { unfold remove_webpack_prefix. now rewrite startswith_append. }
  assert (remove_webpack_prefix p = p) as Hr.
  { unfold remove_webpack_prefix. now rewrite Hp. }
  rewrite Hl, Hr.
  destruct (truthy _); [reflexivity|].
  now rewrite <- (last_segment_remove_prefix ("webpack://" +:+ p)), Hl.
Qed.

Lemma clean_scheme_prefix_transparent_witness :
  _clean_source_path ("webpack://" +:+ "src/components/Button.jsx") =
  _clean_source_path "src/components/Button.jsx".
Proof.
  apply (clean_scheme_prefix_transparent "src/components/Button.jsx").
  reflexivity.
Defined.

(** X2. A path written relative to the current directory keeps all its
    folders: after './' (also behind 'webpack://') no first part is dropped,
    and only the folder inference for bare file names applies. With a '/' in
    the path the result is the path itself. *)
Theorem clean_relative_path_kept (c : ascii) (r : string) :
  Ascii.eqb c "." = false -> Ascii.eqb c "/" = false ->
  _clean_source_path ("./" +:+ String c r) = infer_folder (String c r) /\
  _clean_source_path ("webpack://./" +:+ String c r) = infer_folder (String c r) /\
  (contains "/" (String c r) = true ->
   _clean_source_path ("./" +:+ String c r) = String c r).
Proof.
  intros Hdot Hslash.
  assert (cleaned ("./" +:+ String c r) = infer_folder (String c r)) as H1.
  { unfold cleaned.
    change (remove_webpack_prefix ("./" +:+ String c r)) with ("./" +:+ String c r).
    change (handle_path_patterns ("./" +:+ String c r)) with (String c r).
    now rewrite strip_leading_id. }
  assert (cleaned ("webpack://./" +:+ String c r) = infer_folder (String c r)) as H2.
  { unfold cleaned.
    change (remove_webpack_prefix ("webpack://./" +:+ String c r))
      with ("./" +:+ String c r).
    change (handle_path_patterns ("./" +:+ String c r)) with (String c r).
    now rewrite strip_leading_id. }
  unfold _clean_source_path. rewrite H1, H2, infer_folder_truthy.
  repeat split. intros Hs. unfold infer_folder. now rewrite Hs.
Qed.

Lemma clean_relative_path_kept_witness :
  _clean_source_path ("./" +:+ "src/utils/api.js") = "src/utils/api.js".
Proof.
  apply (clean_relative_path_kept "s" "rc/utils/api.js"); reflexivity.
Defined.

(** X3. Normalisation only cuts at the front: the result is a suffix of the
    input, possibly placed under 'src/', 'src/components/' or 'src/styles/'.
    No character inside the kept part is changed. *)
Theorem clean_result_is_suffix (p : string) :
  exists pre t,
    p = pre +:+ t /\
    (_clean_source_path p = t \/
     _clean_source_path p = "src/" +:+ t \/
     _clean_source_path p = "src/components/" +:+ t \/
     _clean_source_path p = "src/styles/" +:+ t).
Proof.
  unfold _clean_source_path.
  destruct (truthy (cleaned p)) eqn:E.
  - destruct (remove_prefix_suffix p) as [a Ha].
    destruct (handle_suffix (remove_webpack_prefix p)) as [b Hb].
    destruct (lstrip_suffix "./" (handle_path_patterns (remove_webpack_prefix p)))
      as [d Hd].
    exists (a +:+ b +:+ d), (strip_leading (handle_path_patterns (remove_webpack_prefix p))).
    split.
    + rewrite strip_leading_lstrip, !append_assoc, <- Hd, <- Hb. exact Ha.
    + unfold cleaned.
      destruct (infer_folder_cases
                  (strip_leading (handle_path_patterns (remove_webpack_prefix p))))
        as [->|[_ [->|[->| ->]]]]; auto.
  - destruct (last_segment_suffix p) as [pre Hpre].
    exists pre, (last_segment p). auto.
Qed.

(** X4. A bare file name (no '/', not starting with '.') gets its folder by
    the first rule that matches, in this order: 'App.' or 'index.' at the
    start gives 'src/', 'component' or 'Component' at the start gives
    'src/components/', '.css' at the end gives 'src/styles/'; any other bare
    name is returned as it is. *)
Theorem bare_name_folder_inference (name : string) :
  name <> EmptyString ->
  contains "/" name = false ->
  startswith name "." = false ->
  _clean_source_path name =
    if startswith_any name ["App."; "index."] then "src/" +:+ name
    else if startswith_any name ["component"; "Component"] then
      "src/components/" +:+ name
    else if endswith name ".css" then "src/styles/" +:+ name
    else name.
Proof.
  intros Hne Hs Hdot. destruct name as [|c r]; [easy|].
  assert (Ascii.eqb c "." = false) as Hc1.
  { cbn [startswith] in Hdot. now rewrite Ascii.eqb_sym, andb_true_r in Hdot. }
  assert (Ascii.eqb c "/" = false) as Hc2.
  { rewrite contains_slash_cons in Hs. now apply orb_false_elim in Hs. }
  assert (cleaned (String c r) = infer_folder (String c r)) as H.
  { unfold cleaned, remove_webpack_prefix, handle_path_patterns.
    rewrite (no_slash_no_prefix _ "webpack://" Hs eq_refl).
    rewrite (no_slash_no_prefix _ "./" Hs eq_refl), Hs.
    now rewrite strip_leading_id. }
  unfold _clean_source_path. rewrite H, infer_folder_truthy.
  unfold infer_folder. now rewrite Hs.
Qed.

Lemma bare_name_folder_inference_witness :
  _clean_source_path "theme.css" =
    if startswith_any "theme.css" ["App."; "index."] then "src/" +:+ "theme.css"
    else if startswith_any "theme.css" ["component"; "Component"] then
      "src/components/" +:+ "theme.css"
    else if endswith "theme.css" ".css" then "src/styles/" +:+ "theme.css"
    else "theme.css".
Proof.
  apply (bare_name_folder_inference "theme.css"); [discriminate|reflexivity..].
Defined.

(** X5. A path with folders that is already clean is returned unchanged: it
    starts with neither '.' nor '/', does not start with 'webpack://', and
    its first part is not one that the project-name step skips. *)
Theorem clean_identity_on_clean_paths (c : ascii) (r : string) :
  Ascii.eqb c "." = false -> Ascii.eqb c "/" = false ->
  contains "/" (String c r) = true ->
  startswith (String c r) "webpack://" = false ->
  first_part_skipped (String c r) = false ->
  _clean_source_path (String c r) = String c r.
Proof.
  intros Hdot Hslash Hs Hweb Hskip.
  assert (handle_path_patterns (String c r) = String c r) as Hh.
  { unfold handle_path_patterns.
    assert (startswith (String c r) "./" = false) as ->.
    { cbn [startswith]. now rewrite Ascii.eqb_sym, Hdot. }
    unfold first_part_skipped in Hskip. rewrite Hs in *. cbv zeta.
    destruct (looks_like_project_name _); [|reflexivity].
    destruct (project_name_to_skip _); [easy|reflexivity]. }
  unfold _clean_source_path, cleaned, remove_webpack_prefix.
  rewrite Hweb, Hh, strip_leading_id by assumption.
  unfold infer_folder. now rewrite Hs.
Qed.

Lemma clean_identity_on_clean_paths_witness :
  _clean_source_path "components/Button.jsx" = "components/Button.jsx".
Proof.
  apply (clean_identity_on_clean_paths "c" "omponents/Button.jsx"); reflexivity.
Defined.



End NormalisationMore.

(** ** File types, icons and the base URL *)

Module TypeFacts.
Import Str StrFacts.

#[local] Arguments String.append : simpl nomatch.

Lemma endswith_append stem suf : endswith (stem +:+ suf) suf = true.
Proof.
  induction stem as [|c stem IH].
  - destruct suf; simpl; [reflexivity|]. now rewrite Ascii.eqb_refl, String.eqb_refl.
  - change (String c stem +:+ suf) with (String c (stem +:+ suf)).
    cbn [endswith]. rewrite IH. apply orb_true_r.
Qed.

Lemma endswith_spec s suf :
  endswith s suf = true -> exists pre, s = pre +:+ suf.
Proof.
  induction s as [|c s IH]; cbn [endswith].
  - rewrite orb_false_r. intros ->%String.eqb_eq. now exists EmptyString.
  - intros [->%String.eqb_eq|H]%orb_prop; [now exists EmptyString|].
    destruct (IH H) as [pre ->]. now exists (String c pre).
Qed.

(** Two suffixes of one string: one of them ends with the other. *)
Lemma suffixes_nest a x b y :
  a +:+ x = b +:+ y -> endswith x y = true \/ endswith y x = true.
Proof.
  revert b. induction a as [|c a IH]; intros b Heq.
  - left. simpl in Heq. subst x. apply endswith_append.
  - destruct b as [|d b].
    + right. simpl in Heq. subst y.
      apply (endswith_append (String c a)).
    + simpl in Heq. injection Heq as _ Heq. eauto.
Qed.

Lemma endswith_other stem ext suf :
  endswith ext suf = false -> endswith suf ext = false ->
  endswith (stem +:+ ext) suf = false.
Proof.
  intros H1 H2. destruct (endswith (stem +:+ ext) suf) eqn:E; [|reflexivity].
  apply endswith_spec in E as [pre E].
  apply suffixes_nest in E as [E|E]; congruence.
Qed.

Lemma lower_char_idempotent c : lower_char (lower_char c) = lower_char c.
Proof.
  destruct c as [[] [] [] [] [] [] [] []]; reflexivity.
Qed.

Lemma lower_idempotent s : lower (lower s) = lower s.
Proof.
  induction s as [|c s IH]; [reflexivity|].
  cbn [lower]. now rewrite lower_char_idempotent, IH.
Qed.

Lemma rstrip_no_trailing s : endswith (rstrip "/" s) "/" = false.
Proof.
  induction s as [|c s IH]; [reflexivity|]. cbn [rstrip].
  destruct (rstrip "/" s) as [|d r] eqn:E.
  - destruct (char_in c "/") eqn:Hc; [reflexivity|].
    cbn [char_in] in Hc. rewrite orb_false_r in Hc.
    cbn [endswith]. simpl String.eqb. rewrite Hc. reflexivity.
  - cbn [endswith] in *. rewrite IH, orb_false_r.
    simpl String.eqb. now destruct (Ascii.eqb c "/").
Qed.

Lemma rstrip_removed s :
  exists t, s = rstrip "/" s +:+ t /\ lstrip "/" t = EmptyString.
Proof.
  induction s as [|c s (t & Hs & Ht)]; [now exists EmptyString|].
  cbn [rstrip]. destruct (rstrip "/" s) as [|d r] eqn:E.
  - destruct (char_in c "/") eqn:Hc.
    + exists (String c t). simpl in Hs. subst s. split; [reflexivity|].
      cbn [lstrip]. now rewrite Hc.
    + exists t. simpl in Hs. subst s. split; [reflexivity|exact Ht].
  - exists t. split; [|exact Ht].
    change (String c (String d r) +:+ t) with (String c (String d r +:+ t)).
    now rewrite <- Hs.
Qed.

End TypeFacts.

Section TypesAndIcons.
Import Str StrFacts TypeFacts.

#[local] Arguments String.append : simpl nomatch.

(** X7. The file type follows the extension, whatever comes before it: each
    of the eight extensions gives its own type, and every path gets one of
    the nine type names. *)
Theorem determine_file_type_by_extension :
  (forall stem : string,
     _determine_file_type (stem +:+ ".jsx") = "jsx" /\
     _determine_file_type (stem +:+ ".tsx") = "tsx" /\
     _determine_file_type (stem +:+ ".ts") = "ts" /\
     _determine_file_type (stem +:+ ".js") = "js" /\
     _determine_file_type (stem +:+ ".css") = "css" /\
     _determine_file_type (stem +:+ ".scss") = "scss" /\
     _determine_file_type (stem +:+ ".sass") = "sass" /\
     _determine_file_type (stem +:+ ".json") = "json") /\
  (forall path : string,
     in_list (_determine_file_type path)
       ["jsx"; "tsx"; "ts"; "js"; "css"; "scss"; "sass"; "json"; "unknown"] = true).
Proof.
  split.
  - intros stem. unfold _determine_file_type.
    repeat split;
      repeat first
        [ rewrite endswith_append
        | rewrite endswith_other by reflexivity ];
      reflexivity.
  - intros path. unfold _determine_file_type.
    repeat (destruct (endswith path _); [reflexivity|]). reflexivity.
Qed.

(** X8. The two icon tables agree: for each of the eight extensions the icon
    [_get_file_icon] gives for the type of a path with that extension is the
    icon [_get_file_icon_by_ext] gives for the extension; the latter does not
    depend on the case of the extension. *)
Theorem file_icons_agree :
  (forall stem ext : string,
     In ext [".jsx"; ".tsx"; ".ts"; ".js"; ".css"; ".scss"; ".sass"; ".json"] ->
     _get_file_icon (_determine_file_type (stem +:+ ext)) =
     _get_file_icon_by_ext ext) /\
  (forall ext : string,
     _get_file_icon_by_ext (lower ext) = _get_file_icon_by_ext ext).
Proof.
  split.
  - intros stem ext Hin. unfold _determine_file_type.
    simpl in Hin.
    repeat (destruct Hin as [<-|Hin];
      [ repeat first
          [ rewrite endswith_append
          | rewrite endswith_other by reflexivity ];
        reflexivity | ]).
    destruct Hin.
  - intros ext. unfold _get_file_icon_by_ext. now rewrite lower_idempotent.
Qed.

Lemma file_icons_agree_witness :
  _get_file_icon (_determine_file_type ("src/App" +:+ ".tsx")) =
  _get_file_icon_by_ext ".tsx".
Proof.
  apply (proj1 file_icons_agree "src/App" ".tsx"). simpl. tauto.
Defined.

(** X9. [__init__] removes trailing slashes from the base URL and nothing
    else: what it stores does not end with '/', and the given URL is the
    stored one followed by slashes only. *)
Theorem init_base_url_strips_trailing_slashes (base_url : string) :
  endswith (init_base_url base_url) "/" = false /\
  exists slashes,
    base_url = init_base_url base_url +:+ slashes /\
    lstrip "/" slashes = EmptyString.
Proof.
  split; [apply rstrip_no_trailing|apply rstrip_removed].
Qed.

End TypesAndIcons.

(** ** More on the ledger and the network *)

Section LedgerMore.
Import RunFacts ReactSourceDownloader.

Context (json_loads : string -> result json) (base_url : string).
Context (quote : string -> option string).
Context (session_get : string -> option response).

#[local] Abbreviation try_endpoint :=
  (ReactSourceDownloader.try_endpoint base_url quote session_get).
#[local] Abbreviation first_success :=
  (ReactSourceDownloader.first_success base_url quote session_get).
#[local] Abbreviation _fetch_from_webpack_dev_server :=
  (ReactSourceDownloader._fetch_from_webpack_dev_server base_url quote session_get).
#[local] Abbreviation devserver_entry :=
  (ReactSourceDownloader.devserver_entry base_url quote session_get).
#[local] Abbreviation parse_loaded :=
  (ReactSourceDownloader.parse_loaded base_url quote session_get).
#[local] Abbreviation _parse_source_map :=
  (ReactSourceDownloader._parse_source_map json_loads base_url quote session_get).
#[local] Abbreviation try_map_urls :=
  (ReactSourceDownloader.try_map_urls json_loads base_url quote session_get).
#[local] Abbreviation _analyze_source_maps :=
  (ReactSourceDownloader._analyze_source_maps json_loads base_url quote session_get).

Lemma first_success_Some endpoints t :
  first_success endpoints = Some t ->
  exists before endpoint after,
    endpoints = before ++ endpoint :: after /\
    Forall (fun e => try_endpoint e = None) before /\
    try_endpoint endpoint = Some t.
Proof.
  induction endpoints as [|e rest IH]; [discriminate|].
  cbn [ReactSourceDownloader.first_success].
  destruct (try_endpoint e) as [t'|] eqn:E.
  - intros [= ->]. exists [], e, rest. auto.
  - intros H. destruct (IH H) as (before & endpoint & after & -> & Hb & Ht).
    exists (e :: before), endpoint, after. auto.
Qed.

Lemma first_success_None endpoints :
  first_success endpoints = None <->
  Forall (fun e => try_endpoint e = None) endpoints.
Proof.
  induction endpoints as [|e rest IH].
  - split; [intros _; constructor|intros _; reflexivity].
  - cbn [ReactSourceDownloader.first_success]. rewrite Forall_cons.
    destruct (try_endpoint e) as [t'|] eqn:E.
    + split; [discriminate|]. intros [H _]. discriminate.
    + rewrite IH. split; [intros H; split; [reflexivity|exact H]|].
      intros [_ H]. exact H.
Qed.

(** X10. [_fetch_from_webpack_dev_server] returns the text of the first of
    its four endpoints, in the order written, that is answered with status
    200; the endpoints before it were not; it returns [None] exactly when
    none of the four is; and a text it returns is the text of a response
    with status 200 to the quoted endpoint under the base URL. *)
Theorem fetch_returns_first_answer (webpack_path : string) :
  let possible_endpoints :=
    [ "__webpack_dev_server__/src/" +:+ webpack_path;
      "webpack://" +:+ webpack_path;
      "src/" +:+ webpack_path;
      webpack_path ] in
  (forall t, _fetch_from_webpack_dev_server webpack_path = Some t ->
     exists before endpoint after,
       possible_endpoints = before ++ endpoint :: after /\
       Forall (fun e => try_endpoint e = None) before /\
       exists encoded_path response,
         quote endpoint = Some encoded_path /\
         session_get (base_url +:+ "/" +:+ encoded_path) = Some response /\
         status_code response = 200%Z /\
         text response = t) /\
  (_fetch_from_webpack_dev_server webpack_path = None <->
   Forall (fun e => try_endpoint e = None) possible_endpoints).
Proof.
  intros possible_endpoints. split.
  - intros t Ht. apply first_success_Some in Ht
      as (before & endpoint & after & Heq & Hb & Ht).
    exists before, endpoint, after. repeat split; auto.
    unfold ReactSourceDownloader.try_endpoint in Ht.
    destruct (quote endpoint) as [encoded_path|]; [|discriminate].
    destruct (session_get _) as [response|] eqn:Hget; [|discriminate].
    destruct (status_code response =? 200)%Z eqn:Hs; [|discriminate].
    injection Ht as <-. apply Z.eqb_eq in Hs. eauto 6.
  - apply first_success_None.
Qed.

Lemma fetch_without_server :
  (forall url response, session_get url = Some response ->
     status_code response <> 200%Z) ->
  forall webpack_path, _fetch_from_webpack_dev_server webpack_path = None.
Proof.
  intros Hnone webpack_path. apply first_success_None.
  repeat constructor; unfold ReactSourceDownloader.try_endpoint;
    destruct (quote _); try reflexivity;
    destruct (session_get _) as [r|] eqn:E; try reflexivity;
    destruct (Z.eqb_spec (status_code r) 200) as [Hs|]; try reflexivity;
    now destruct (Hnone _ _ E).
Qed.

Lemma for_each_unchanged {A} (body : A -> Run unit) :
  (forall x l, fst (body x l) = l) ->
  forall xs l, fst (for_each body xs l) = l.
Proof.
  intros Hbody xs. induction xs as [|x xs IH]; intros l; [reflexivity|].
  cbn [for_each]. unfold bind. specialize (Hbody x l).
  destruct (body x l) as [l' [u|e]]; simpl in Hbody; subst l'; [apply IH|reflexivity].
Qed.

(** X11. Without a server that answers with status 200, a map that carries
    'sources' but no 'sourcesContent' adds nothing to the ledger. *)
Theorem sources_only_map_needs_server :
  (forall url response, session_get url = Some response ->
     status_code response <> 200%Z) ->
  forall items files,
    dict_get "sourcesContent" items = None ->
    fst (parse_loaded (JObj items) files) = files.
Proof.
  intros Hnone items files Hc.
  destruct (dict_get "sources" items) as [srcs|] eqn:Hs;
    [|now rewrite parse_loaded_no_sources].
  rewrite (parse_loaded_without_content _ _ _ _ _ _ Hs Hc).
  unfold bind, lift. destruct (py_iter srcs) as [entries|]; [|reflexivity].
  apply for_each_unchanged. intros x l.
  unfold ReactSourceDownloader.devserver_entry.
  destruct x as [| | |s| |]; try reflexivity.
  unfold bind, lift, as_str, discovered_files, append, ret.
  rewrite (fetch_without_server Hnone). now destruct (_ && _).
Qed.

Context (find_scripts find_styles : string -> list string).
Context (urljoin : string -> string -> option string).

#[local] Abbreviation discover_files :=
  (Collaborators.discover_files json_loads base_url quote session_get
     find_scripts find_styles urljoin).
#[local] Abbreviation _scan_main_page :=
  (Collaborators._scan_main_page base_url session_get find_scripts find_styles urljoin).
#[local] Abbreviation store_bundles :=
  (Collaborators.store_bundles base_url urljoin).

Lemma sourcemap_entry_wf x l :
  fst (sourcemap_entry x l) = l \/
  exists f, fst (sourcemap_entry x l) = l ++ [f] /\
    path_seen (path f) l = false /\
    (JStr (original_path f), content f) = x /\ well_formed_record f.
Proof.
  destruct (sourcemap_entry_step x l)
    as [H|(f & H & Hfresh & Hor & Hc & Hp & Ht & Hs)]; [now left|].
  right. exists f. unfold well_formed_record. auto 10.
Qed.

Lemma devserver_entry_wf x l :
  fst (devserver_entry x l) = l \/
  exists f, fst (devserver_entry x l) = l ++ [f] /\
    path_seen (path f) l = false /\
    JStr (original_path f) = x /\ well_formed_record f.
Proof.
  unfold ReactSourceDownloader.devserver_entry.
  destruct x as [| | |s| |]; try (now left).
  unfold bind, lift, as_str, discovered_files, append, ret.
  destruct (Str.truthy (_clean_source_path s)) eqn:Htruthy; [|now left].
  destruct (Str.contains "node_modules" (_clean_source_path s)) eqn:Hnm; [now left|].
  destruct (path_seen _ l) eqn:Hseen; [now left|]. cbn [negb andb].
  destruct (_fetch_from_webpack_dev_server s) as [t|]; [|now left].
  destruct (Str.truthy t) eqn:Ht; [|now left]. right.
  eexists. split; [reflexivity|]. unfold well_formed_record. simpl.
  repeat split; auto. right. repeat split; auto.
  - exists t. split; [reflexivity|]. now apply StrFacts.truthy_true.
  - now apply StrFacts.truthy_true.
Qed.

Lemma parse_loaded_wf v l :
  exists ext,
    fst (parse_loaded v l) = l ++ ext /\ Forall well_formed_record ext.
Proof.
  assert (Hnone : fst (parse_loaded v l) = l -> exists ext,
    fst (parse_loaded v l) = l ++ ext /\ Forall well_formed_record ext).
  { intros E. exists []. now rewrite app_nil_r. }
  destruct v as [| | | | |items];
    try (apply Hnone, parse_loaded_not_dict; discriminate).
  destruct (dict_get "sources" items) as [srcs|] eqn:Hs;
    [|apply Hnone; now rewrite parse_loaded_no_sources].
  destruct (dict_get "sourcesContent" items) as [cnts|] eqn:Hc.
  - rewrite (parse_loaded_with_content _ _ _ _ _ _ _ Hs Hc) in *.
    unfold bind, lift in *.
    destruct (py_len srcs); [|now apply Hnone].
    destruct (py_zip srcs cnts) as [entries|]; [|now apply Hnone].
    destruct (for_each_appends _ well_formed_record sourcemap_entry
                sourcemap_entry_wf entries l) as (ext & Hext & _ & HQ & _).
    now exists ext.
  - rewrite (parse_loaded_without_content _ _ _ _ _ _ Hs Hc) in *.
    unfold bind, lift in *.
    destruct (py_iter srcs) as [entries|]; [|now apply Hnone].
    destruct (for_each_appends _ well_formed_record devserver_entry
                devserver_entry_wf entries l) as (ext & Hext & _ & HQ & _).
    now exists ext.
Qed.

Lemma try_map_urls_wf map_urls l :
  Forall well_formed_record l -> Forall well_formed_record (try_map_urls map_urls l).
Proof.
  intros Hl. induction map_urls as [|u rest IH]; simpl; [exact Hl|].
  destruct (session_get u) as [r|]; [|exact IH].
  destruct (status_code r =? 200)%Z; [|exact IH].
  rewrite parse_source_map_fst. destruct (json_loads (text r)) as [v|e]; [|exact Hl].
  destruct (parse_loaded_wf v l) as (ext & -> & Hext).
  now apply Forall_app.
Qed.

Lemma analyze_source_maps_wf source_maps l :
  Forall well_formed_record l ->
  Forall well_formed_record (_analyze_source_maps source_maps l).
Proof.
  unfold ReactSourceDownloader._analyze_source_maps.
  revert l. induction source_maps as [|b rest IH]; intros l Hl; [exact Hl|].
  cbn [fold_left]. apply IH. now apply try_map_urls_wf.
Qed.

(** X12. Whatever the entry page, the network and the maps hold,
    [discover_files] only appends to the ledger, and it keeps the ledger
    well formed: the paths stay pairwise distinct, and every record has the
    normalised original path as its path, the type of that path, and either
    a 'sourcemap' content that is not [None] or a non-empty
    'webpack-dev-server' text under a non-empty path without
    'node_modules'. *)
Theorem discover_files_keeps_ledger_well_formed :
  forall source_maps files,
    NoDup (path <$> files) ->
    Forall well_formed_record files ->
    files `prefix_of` snd (discover_files source_maps files) /\
    NoDup (path <$> snd (discover_files source_maps files)) /\
    Forall well_formed_record (snd (discover_files source_maps files)).
Proof.
  intros source_maps files Hnd Hwf. unfold Collaborators.discover_files. simpl.
  destruct (analyze_source_maps_grows json_loads base_url quote session_get
              (_scan_main_page source_maps) files) as [Hpre Hnd'].
  repeat split; auto. now apply analyze_source_maps_wf.
Qed.

Lemma sourcemap_entry_cases sp c :
  (forall l, sourcemap_entry (sp, c) l = (l, Ok tt)) \/
  (forall l, sourcemap_entry (sp, c) l = (l, Raise AttributeError)) \/
  (exists f, forall l,
     sourcemap_entry (sp, c) l =
       if path_seen (path f) l then (l, Ok tt) else (l ++ [f], Ok tt)).
Proof.
  unfold sourcemap_entry. destruct (is_None c); [now left|].
  destruct sp as [| | |s| |]; try (right; left; reflexivity).
  unfold bind, lift, as_str, discovered_files, append, ret.
  destruct (passes_skip_filter _ s); [|now left].
  right. right.
  exists {| path := _clean_source_path s;
            content := c;
            type := _determine_file_type (_clean_source_path s);
            source := "sourcemap";
            original_path := s |}.
  intros l. cbn [path]. destruct (path_seen _ l); reflexivity.
Qed.

Lemma for_each_sourcemap_prefix entries l :
  l `prefix_of` fst (for_each sourcemap_entry entries l).
Proof.
  destruct (sourcemap_loop entries l) as (ext & -> & _). now exists ext.
Qed.

(** Running the loop again on a ledger that already holds every path the
    first run ended with changes nothing and ends the same way. *)
Lemma sourcemap_loop_again entries :
  forall l l2,
    (forall p, p ∈ path <$> fst (for_each sourcemap_entry entries l) ->
               p ∈ path <$> l2) ->
    for_each sourcemap_entry entries l2 =
      (l2, snd (for_each sourcemap_entry entries l)).
Proof.
  induction entries as [|[sp c] entries IH]; intros l l2 Hsub; [reflexivity|].
  cbn [for_each] in *. unfold bind in *.
  destruct (sourcemap_entry_cases sp c) as [H|[H|[f H]]].
  - rewrite !H in *. now apply IH.
  - now rewrite !H.
  - rewrite !H in *.
    assert (path_seen (path f) l2 = true) as ->.
    { apply path_seen_true, Hsub.
      destruct (path_seen (path f) l) eqn:Hseen.
      - apply path_seen_true in Hseen.
        destruct (for_each_sourcemap_prefix entries l) as [ext ->].
        rewrite fmap_app. apply elem_of_app. now left.
      - destruct (for_each_sourcemap_prefix entries (l ++ [f])) as [ext ->].
        rewrite !fmap_app. apply elem_of_app. left. apply elem_of_app. right.
        apply list_elem_of_singleton. reflexivity. }
    destruct (path_seen (path f) l); now apply IH.
Qed.

(** X13. Reading a map with 'sources' and 'sourcesContent' a second time
    adds nothing: on the ledger the first reading left, the same map leaves
    the ledger as it is and ends the same way (normally or with the same
    exception). *)
Theorem reading_a_map_twice_adds_nothing :
  forall items srcs cnts files,
    dict_get "sources" items = Some srcs ->
    dict_get "sourcesContent" items = Some cnts ->
    parse_loaded (JObj items) (fst (parse_loaded (JObj items) files)) =
    parse_loaded (JObj items) files.
Proof.
  intros items srcs cnts files Hs Hc.
  rewrite !(parse_loaded_with_content _ _ _ _ _ _ _ Hs Hc).
  unfold bind, lift.
  destruct (py_len srcs); [|reflexivity].
  destruct (py_zip srcs cnts) as [entries|]; [|reflexivity].
  rewrite (sourcemap_loop_again entries files); [|auto].
  now destruct (for_each sourcemap_entry entries files).
Qed.

(** X14. A map appends at most as many records as its 'sources' list has
    entries, and, when it carries a 'sourcesContent' list, at most as many
    as that list has. *)
Theorem map_appends_at_most_its_entries :
  forall items srcs files,
    dict_get "sources" items = Some (JArr srcs) ->
    exists ext,
      fst (parse_loaded (JObj items) files) = files ++ ext /\
      length ext <= length srcs /\
      (forall cnts, dict_get "sourcesContent" items = Some (JArr cnts) ->
                    length ext <= length cnts).
Proof.
  intros items srcs files Hs.
  destruct (parse_loaded_grows base_url quote session_get (JObj items) files)
    as (ext & Hext & _ & Hsub).
  exists ext. split; [exact Hext|]. split.
  - specialize (Hsub items srcs eq_refl Hs).
    apply sublist_length in Hsub. now rewrite length_fmap in Hsub.
  - intros cnts Hc.
    rewrite (parse_loaded_with_content _ _ _ _ _ _ _ Hs Hc) in Hext.
    unfold bind, lift in Hext. simpl in Hext.
    destruct (sourcemap_loop (zip srcs cnts) files) as (ext' & Hext' & Hsub' & _).
    rewrite Hext' in Hext. apply app_inv_head in Hext. subst ext'.
    apply sublist_length in Hsub'.
    rewrite length_fmap, length_zip in Hsub'. lia.
Qed.

Lemma store_bundles_spec found source_maps :
  exists added,
    fst (store_bundles found source_maps) = source_maps ++ added /\
    length added <= length found /\
    forall url, url ∈ added ->
      exists script, script ∈ found /\
        Str.startswith_any script ["http:"; "https:"; "//"] = false /\
        urljoin (base_url +:+ "/") script = Some url.
Proof.
  revert source_maps. induction found as [|script rest IH]; intros source_maps.
  - exists []. rewrite app_nil_r. repeat split; auto.
    intros url Hin. now apply not_elem_of_nil in Hin.
  - cbn [Collaborators.store_bundles].
    destruct (Str.startswith_any script _) eqn:Hext; cbn [negb].
    + destruct (IH source_maps) as (added & -> & Hlen & Hin).
      exists added. repeat split; [simpl; lia|].
      intros url Hurl. destruct (Hin url Hurl) as (x & Hx & H).
      exists x. split; [now apply list_elem_of_further|exact H].
    + destruct (urljoin (base_url +:+ "/") script) as [full_url|] eqn:Hjoin.
      * destruct (IH (source_maps ++ [full_url])) as (added & -> & Hlen & Hin).
        exists (full_url :: added). rewrite <- app_assoc.
        repeat split; [simpl; lia|].
        intros url [->|Hurl]%elem_of_cons.
        -- exists script. split; [apply list_elem_of_here|auto].
        -- destruct (Hin url Hurl) as (x & Hx & H).
           exists x. split; [now apply list_elem_of_further|exact H].
      * exists []. rewrite app_nil_r. repeat split; [simpl; lia|].
        intros url Hurl. now apply not_elem_of_nil in Hurl.
Qed.

(** X15. [_scan_main_page] only appends to [self.source_maps]. Every URL it
    adds is [urljoin] of the base URL and a script or style reference of the
    entry page that does not start with 'http:', 'https:' or '//', and the
    entry page was answered with status 200; it adds at most one URL per
    reference. When the page is not answered with status 200, or the request
    raises, nothing is added. *)
Theorem scan_main_page_adds_local_bundles (source_maps : list string) :
  (exists added,
     _scan_main_page source_maps = source_maps ++ added /\
     forall url, url ∈ added ->
       exists response script,
         session_get base_url = Some response /\
         status_code response = 200%Z /\
         length added <=
           length (find_scripts (text response)) + length (find_styles (text response)) /\
         script ∈ find_scripts (text response) ++ find_styles (text response) /\
         Str.startswith_any script ["http:"; "https:"; "//"] = false /\
         urljoin (base_url +:+ "/") script = Some url) /\
  ((forall response, session_get base_url = Some response ->
      status_code response <> 200%Z) ->
   _scan_main_page source_maps = source_maps).
Proof.
  unfold Collaborators._scan_main_page. split.
  - destruct (session_get base_url) as [response|] eqn:Hget.
    2:{ exists []. rewrite app_nil_r. split; [reflexivity|].
        intros url Hurl. now apply not_elem_of_nil in Hurl. }
    destruct (Z.eqb_spec (status_code response) 200) as [Hs|Hs].
    2:{ exists []. rewrite app_nil_r. split; [reflexivity|].
        intros url Hurl. now apply not_elem_of_nil in Hurl. }
    cbv zeta.
    destruct (store_bundles_spec (find_scripts (text response)) source_maps)
      as (added1 & H1 & Hlen1 & Hin1).
    destruct (store_bundles (find_scripts (text response)) source_maps)
      as [sm1 stored] eqn:E1. simpl in H1. subst sm1.
    destruct stored.
    + destruct (store_bundles_spec (find_styles (text response)) (source_maps ++ added1))
        as (added2 & H2 & Hlen2 & Hin2).
      exists (added1 ++ added2). rewrite H2, <- app_assoc. split; [reflexivity|].
      intros url [Hurl|Hurl]%elem_of_app.
      * destruct (Hin1 url Hurl) as (x & Hx & Hext & Hjoin).
        exists response, x. rewrite length_app.
        repeat split; auto; [lia|]. apply elem_of_app. now left.
      * destruct (Hin2 url Hurl) as (x & Hx & Hext & Hjoin).
        exists response, x. rewrite length_app.
        repeat split; auto; [lia|]. apply elem_of_app. now right.
    + exists added1. split; [reflexivity|].
      intros url Hurl. destruct (Hin1 url Hurl) as (x & Hx & Hext & Hjoin).
      exists response, x. repeat split; auto; [lia|]. apply elem_of_app. now left.
  - intros Hnone. destruct (session_get base_url) as [response|]; [|reflexivity].
    destruct (Z.eqb_spec (status_code response) 200) as [Hs|Hs]; [|reflexivity].
    now destruct (Hnone response eq_refl).
Qed.

End LedgerMore.

(** ** The two candidate URLs of a map *)

Module ReplaceFacts.
Import Str StrFacts.

#[local] Arguments String.append : simpl nomatch.

Lemma startswith_refl s : startswith s s = true.
Proof. induction s as [|c s IH]; simpl; [reflexivity|]. now rewrite Ascii.eqb_refl. Qed.

Lemma slice_from_append a rest : slice_from (String.length a) (a +:+ rest) = rest.
Proof. induction a as [|c a IH]; simpl; [now destruct rest|exact IH]. Qed.

Lemma length_append a b :
  String.length (a +:+ b) = String.length a + String.length b.
Proof. induction a as [|c a IH]; simpl; [reflexivity|now rewrite IH]. Qed.

(** A prefix of [a ++ b] either is a prefix of [a] or runs into [b]. *)
Lemma startswith_append_cases a b pre :
  startswith (a +:+ b) pre = true ->
  startswith a pre = true \/
  exists rest, rest <> EmptyString /\ pre = a +:+ rest /\ startswith b rest = true.
Proof.
  revert a. induction pre as [|p pre IH]; intros a H; [now left|].
  destruct a as [|c a].
  - right. exists (String p pre). easy.
  - change (String c a +:+ b) with (String c (a +:+ b)) in H.
    cbn [startswith] in H. apply andb_prop in H as [Hc H].
    destruct (IH a H) as [Ha|(rest & Hne & -> & Hb)].
    + left. cbn [startswith]. now rewrite Hc, Ha.
    + right. exists rest. apply Ascii.eqb_eq in Hc. subst c. easy.
Qed.

(** An occurrence of [old] in [a ++ b] lies in [a], lies in [b], or starts in
    [a] and ends in [b]. *)
Lemma contains_append_cases old a b :
  contains old (a +:+ b) = true ->
  contains old a = true \/ contains old b = true \/
  exists a2 rest,
    a2 <> EmptyString /\ rest <> EmptyString /\
    old = a2 +:+ rest /\ startswith b rest = true.
Proof.
  induction a as [|c a IH]; [now right; left|].
  change (String c a +:+ b) with (String c (a +:+ b)).
  cbn [contains]. intros [H|H]%orb_prop.
  - change (String c (a +:+ b)) with (String c a +:+ b) in H.
    apply startswith_append_cases in H as [H|(rest & Hne & -> & Hb)].
    + left. now rewrite H.
    + right. right. exists (String c a), rest. easy.
  - destruct (IH H) as [Ha|[Hb|Hx]]; auto.
    left. rewrite Ha. apply orb_true_r.
Qed.

(** A proper, non-empty end of [old] is [old] from some position on. *)
Lemma proper_end old a2 rest :
  old = a2 +:+ rest -> a2 <> EmptyString -> rest <> EmptyString ->
  exists n, 0 < n /\ n < String.length old /\ rest = slice_from n old.
Proof.
  intros -> Ha Hr. exists (String.length a2). rewrite length_append, slice_from_append.
  destruct a2; [easy|]. destruct rest; [easy|]. simpl. repeat split; lia.
Qed.

Lemma contains_absent_append old a b :
  contains old a = false -> contains old b = false ->
  (forall n, 0 < n -> n < String.length old ->
             startswith b (slice_from n old) = false) ->
  contains old (a +:+ b) = false.
Proof.
  intros Ha Hb Hcross. destruct (contains old (a +:+ b)) eqn:E; [|reflexivity].
  apply contains_append_cases in E as [E|[E|(a2 & rest & Hne2 & Hne & Heq & E)]];
    try congruence.
  destruct (proper_end old a2 rest Heq Hne2 Hne) as (n & Hn1 & Hn2 & ->).
  now rewrite Hcross in E.
Qed.

Lemma replace_from_skip_all old new t :
  replace_from (String.length t) old new t = EmptyString.
Proof. induction t as [|c t IH]; [reflexivity|exact IH]. Qed.

Lemma replace_absent old new t :
  contains old t = false -> replace old new t = t.
Proof.
  unfold replace. induction t as [|c t IH]; [reflexivity|].
  cbn [contains]. intros [H1 H2]%orb_false_elim.
  cbn [replace_from]. rewrite H1. f_equal. auto.
Qed.

(** A single occurrence at the very end is replaced there. *)
Lemma replace_at_end c old_tail new s :
  let old := String c old_tail in
  contains old s = false ->
  (forall n, 0 < n -> n < String.length old ->
             startswith old (slice_from n old) = false) ->
  replace old new (s +:+ old) = s +:+ new.
Proof.
  intros old Hs Hcross. unfold replace.
  induction s as [|d s IH].
  - change (EmptyString +:+ old) with (String c old_tail).
    cbn [replace_from]. fold old. rewrite startswith_refl.
    replace (String.length old - 1) with (String.length old_tail)
      by (unfold old; simpl; lia).
    rewrite replace_from_skip_all. apply append_empty_r.
  - cbn [contains] in Hs. apply orb_false_elim in Hs as [H1 H2].
    change (String d s +:+ old) with (String d (s +:+ old)).
    cbn [replace_from].
    assert (startswith (String d (s +:+ old)) old = false) as ->.
    { destruct (startswith (String d (s +:+ old)) old) eqn:E; [|reflexivity].
      change (String d (s +:+ old)) with (String d s +:+ old) in E.
      apply startswith_append_cases in E as [E|(rest & Hne & Heq & E)];
        [congruence|].
      destruct (proper_end old (String d s) rest Heq) as (n & Hn1 & Hn2 & ->);
        [easy|easy|].
      now rewrite Hcross in E. }
    change (String d s +:+ new) with (String d (s +:+ new)). f_equal. auto.
Qed.

End ReplaceFacts.

Section MapUrls.
Import Str StrFacts ReplaceFacts ReactSourceDownloader.

#[local] Arguments String.append : simpl nomatch.

(** X16. For a bundle URL that ends in '.js' or in '.css' and has no other
    '.js' or '.css' in it, the two candidate map URLs are the same URL: the
    bundle URL followed by '.map'. The second request repeats the first. *)
Theorem map_urls_coincide_for_plain_bundle (stem : string) :
  contains ".js" stem = false ->
  contains ".css" stem = false ->
  map_urls_of (stem +:+ ".js") = [stem +:+ ".js.map"; stem +:+ ".js.map"] /\
  map_urls_of (stem +:+ ".css") = [stem +:+ ".css.map"; stem +:+ ".css.map"].
Proof.
  intros Hjs Hcss. unfold map_urls_of. rewrite !append_assoc.
  change (".js" +:+ ".map") with ".js.map".
  change (".css" +:+ ".map") with ".css.map".
  split; repeat f_equal.
  - rewrite (replace_at_end "." "js" ".js.map" stem Hjs).
    + apply replace_absent.
      apply contains_absent_append; [assumption|reflexivity|].
      intros [|[|[|[|n]]]] ? ?; simpl in *; try lia; reflexivity.
    + intros [|[|[|n]]] ? ?; simpl in *; try lia; reflexivity.
  - rewrite (replace_absent ".js" ".js.map" (stem +:+ ".css")).
    + apply (replace_at_end "." "css" ".css.map" stem Hcss).
      intros [|[|[|[|n]]]] ? ?; simpl in *; try lia; reflexivity.
    + apply contains_absent_append; [assumption|reflexivity|].
      intros [|[|[|n]]] ? ?; simpl in *; try lia; reflexivity.
Qed.

Lemma map_urls_coincide_for_plain_bundle_witness :
  map_urls_of ("http://localhost:3000/static/js/main" +:+ ".js") =
    [ "http://localhost:3000/static/js/main" +:+ ".js.map";
      "http://localhost:3000/static/js/main" +:+ ".js.map" ].
Proof.
  apply (map_urls_coincide_for_plain_bundle "http://localhost:3000/static/js/main");
    reflexivity.
Defined.

End MapUrls.

(** ** Presentation and download *)

Module TreeFacts.
Import Tree.

Lemma table_get_dict_set_eq part level dirs :
  table_get part (dict_set part level dirs) = Some level.
Proof.
  unfold table_get. induction dirs as [|[k v] dirs IH]; simpl.
  - now rewrite String.eqb_refl.
  - destruct (String.eqb k part) eqn:E; simpl; rewrite E; [reflexivity|exact IH].
Qed.

Lemma table_get_dict_set_ne q part level dirs :
  q <> part -> table_get q (dict_set part level dirs) = table_get q dirs.
Proof.
  intros Hne. unfold table_get. induction dirs as [|[k v] dirs IH]; simpl.
  - apply String.eqb_neq in Hne. now rewrite String.eqb_sym, Hne.
  - destruct (String.eqb k part) eqn:E; simpl.
    + apply String.eqb_eq in E. subst k.
      apply String.eqb_neq in Hne. now rewrite String.eqb_sym, Hne.
    + destruct (String.eqb k q); [reflexivity|exact IH].
Qed.

Lemma count_files_level files dirs :
  count_files (Level files dirs) =
  length (default [] files) +
  sum_list ((fun kv => count_files (snd kv)) <$> default [] dirs).
Proof.
  cbn [count_files]. f_equal. destruct dirs as [ds|]; [|reflexivity].
  induction ds as [|[k v] ds IH]; [reflexivity|]. simpl in *. now rewrite IH.
Qed.

Lemma count_dict_set part level dirs :
  sum_list ((fun kv => count_files (snd kv)) <$> dict_set part level dirs) +
    count_files (default empty (table_get part dirs)) =
  sum_list ((fun kv => count_files (snd kv)) <$> dirs) + count_files level.
Proof.
  unfold table_get. induction dirs as [|[k v] dirs IH]; csimpl; [lia|].
  destruct (String.eqb k part); csimpl in *; lia.
Qed.

Lemma add_file_count path_parts item tree :
  path_parts <> [] ->
  count_files (add_file path_parts item tree) = S (count_files tree).
Proof.
  revert tree. induction path_parts as [|part rest IH]; intros tree Hne; [easy|].
  destruct tree as [files dirs]. destruct rest as [|part2 rest].
  - cbn [add_file]. rewrite !count_files_level. simpl default at 1.
    rewrite length_app. simpl. lia.
  - change (add_file (part :: part2 :: rest) item (Level files dirs))
      with (Level files
              (Some (dict_set part
                       (add_file (part2 :: rest) item
                          (default empty (table_get part (default [] dirs))))
                       (default [] dirs)))).
    rewrite !count_files_level.
    change (default [] (Some ?x)) with x.
    pose proof (count_dict_set part
      (add_file (part2 :: rest) item (default empty (table_get part (default [] dirs))))
      (default [] dirs)) as H.
    rewrite IH in H by easy. lia.
Qed.

Lemma find_files_added path_parts item tree :
  path_parts <> [] ->
  (forall part, name (item part) = part) ->
  item (List.last path_parts EmptyString) ∈
    find_files path_parts (add_file path_parts item tree).
Proof.
  intros Hne Hname. revert tree Hne.
  induction path_parts as [|part rest IH]; intros tree Hne; [easy|].
  destruct tree as [files dirs]. destruct rest as [|part2 rest].
  - cbn [add_file find_files List.last]. simpl default.
    apply list_elem_of_In, filter_In. split.
    + apply in_or_app. right. now left.
    + rewrite Hname. apply String.eqb_refl.
  - change (add_file (part :: part2 :: rest) item (Level files dirs))
      with (Level files
              (Some (dict_set part
                       (add_file (part2 :: rest) item
                          (default empty (table_get part (default [] dirs))))
                       (default [] dirs)))).
    change (find_files (part :: part2 :: rest) (Level files ?d))
      with (match table_get part (default [] d) with
            | Some sub => find_files (part2 :: rest) sub
            | None => []
            end).
    simpl default at 1. rewrite table_get_dict_set_eq.
    change (List.last (part :: part2 :: rest) EmptyString)
      with (List.last (part2 :: rest) EmptyString).
    now apply IH.
Qed.

Lemma find_files_kept path_parts item tree other e :
  e ∈ find_files other tree ->
  e ∈ find_files other (add_file path_parts item tree).
Proof.
  revert tree other. induction path_parts as [|part rest IH]; intros tree other He;
    [now destruct tree|].
  destruct tree as [files dirs]. destruct rest as [|part2 rest].
  - cbn [add_file]. destruct other as [|q [|q2 other]]; [exact He| |exact He].
    cbn [find_files] in *. simpl default.
    apply list_elem_of_In, filter_In. apply list_elem_of_In, filter_In in He as [H1 H2].
    split; [apply in_or_app; now left|exact H2].
  - change (add_file (part :: part2 :: rest) item (Level files dirs))
      with (Level files
              (Some (dict_set part
                       (add_file (part2 :: rest) item
                          (default empty (table_get part (default [] dirs))))
                       (default [] dirs)))).
    destruct other as [|q [|q2 other]]; [exact He|exact He|].
    change (find_files (q :: q2 :: other) (Level files ?d))
      with (match table_get q (default [] d) with
            | Some sub => find_files (q2 :: other) sub
            | None => []
            end) in *.
    simpl default at 1.
    destruct (String.eqb_spec q part) as [->|Hq].
    + rewrite table_get_dict_set_eq.
      destruct (table_get part (default [] dirs)) as [sub|].
      * now apply IH.
      * now apply not_elem_of_nil in He.
    + now rewrite table_get_dict_set_ne.
Qed.

End TreeFacts.

Section Presentation.
Import RunFacts TreeFacts.

Context (number_truthy : string -> bool).
Context (fs : Type) (mkdir_output : fs -> fs * bool).
Context (write_file : fs -> file_info -> fs * bool).
Context (_show_created_structure : fs -> bool).

#[local] Abbreviation py_bool := (Collaborators.py_bool number_truthy).
#[local] Abbreviation content_size := (Collaborators.content_size number_truthy).
#[local] Abbreviation build_tree := (Collaborators.build_tree number_truthy).
#[local] Abbreviation print_file_structure :=
  (Collaborators.print_file_structure number_truthy).
#[local] Abbreviation write_all :=
  (Collaborators.write_all number_truthy fs write_file).
#[local] Abbreviation download_files :=
  (Collaborators.download_files number_truthy fs mkdir_output write_file
     _show_created_structure).

(** A content that is true and has no length: [True] or a number that is not
    zero. *)
Lemma content_size_cases content :
  (exists size, content_size content = Ok size) /\
    match content with
    | JBool true => False
    | JNum literal => number_truthy literal = false
    | _ => True
    end \/
  content_size content = Raise TypeError /\
    match content with
    | JBool true => True
    | JNum literal => number_truthy literal = true
    | _ => False
    end.
Proof.
  unfold Collaborators.content_size.
  destruct content as [|[]|literal|s|elements|items]; simpl; eauto.
  - destruct (number_truthy literal); eauto.
  - destruct (Str.truthy s); eauto.
  - destruct elements; eauto.
  - destruct items; eauto.
Qed.

Lemma build_tree_count files tree tree' :
  build_tree files tree = Ok tree' ->
  Tree.count_files tree' = Tree.count_files tree + length files.
Proof.
  revert tree. induction files as [|f files IH]; intros tree.
  - intros [= <-]. simpl. lia.
  - cbn [Collaborators.build_tree].
    destruct (content_size (content f)) as [size|]; [|discriminate].
    intros H. apply IH in H. rewrite add_file_count in H.
    + simpl. lia.
    + apply StrFacts.split_nonempty.
Qed.

Lemma build_tree_finds files tree tree' :
  build_tree files tree = Ok tree' ->
  (forall other e, e ∈ Tree.find_files other tree ->
                   e ∈ Tree.find_files other tree') /\
  (forall f, f ∈ files ->
     exists e, e ∈ Tree.find_files (Str.split "/" (path f)) tree' /\
       Tree.name e = last_segment (path f) /\
       Tree.type e = type f /\ Tree.source e = source f /\
       content_size (content f) = Ok (Tree.size e)).
Proof.
  revert tree. induction files as [|f files IH]; intros tree.
  - intros [= <-]. split; [auto|]. intros f Hf. now apply not_elem_of_nil in Hf.
  - cbn [Collaborators.build_tree].
    destruct (content_size (content f)) as [size|] eqn:Hsize; [|discriminate].
    intros H. destruct (IH _ H) as [Hkept Hfound]. split.
    + intros other e He. apply Hkept. now apply find_files_kept.
    + intros f' [->|Hf']%elem_of_cons; [|auto].
      eexists. split.
      * apply Hkept. apply find_files_added; [apply StrFacts.split_nonempty|].
        reflexivity.
      * simpl. rewrite Hsize. auto.
Qed.


(** X18. The tree that [print_file_structure] builds holds every record
    once: its file items number as many as the ledger has records, and for
    each record the item made from it (the last part of its path as name,
    its type, its source and its size) is found in the folder that the
    leading parts of its path lead to. *)
Theorem file_tree_holds_every_record (files : list file_info) tree :
  build_tree files Tree.empty = Ok tree ->
  Tree.count_files tree = length files /\
  forall f, f ∈ files ->
    exists e, e ∈ Tree.find_files (Str.split "/" (path f)) tree /\
      Tree.name e = last_segment (path f) /\
      Tree.type e = type f /\ Tree.source e = source f /\
      content_size (content f) = Ok (Tree.size e).
Proof.
  intros H. split.
  - now rewrite (build_tree_count _ _ _ H).
  - now apply (build_tree_finds _ _ _ H).
Qed.

Lemma filter_disjoint_length {A} (P Q : A -> bool) (l : list A) :
  (forall x, P x = true -> Q x = true -> False) ->
  length (List.filter P l) + length (List.filter Q l) <= length l.
Proof.
  intros Hdis. induction l as [|x l IH]; simpl; [lia|].
  destruct (P x) eqn:HP, (Q x) eqn:HQ; simpl; try lia.
  now destruct (Hdis x).
Qed.

Lemma filter_partition_length {A} (P Q : A -> bool) (l : list A) :
  Forall (fun x => xorb (P x) (Q x) = true) l ->
  length (List.filter P l) + length (List.filter Q l) = length l.
Proof.
  induction 1 as [|x l Hx _ IH]; simpl; [lia|].
  destruct (P x), (Q x); simpl in *; try discriminate; lia.
Qed.

(** X19. The summary counts are consistent: script, style and other files
    add up to the number of records, and the count of other files is never
    negative. On a well-formed ledger (as [discover_files] leaves it) the
    'sourcemap' and 'webpack-dev-server' counts add up to the number of
    records too. *)
Theorem summary_counts_add_up (files : list file_info) :
  let s := summarize files in
  (js_files s + css_files s + other_files s = Z.of_nat (length files))%Z /\
  (0 <= other_files s)%Z /\
  (Forall well_formed_record files ->
   (sourcemap_files s + webpack_files s = Z.of_nat (length files))%Z).
Proof.
  unfold summarize, count_if. cbn [js_files css_files other_files sourcemap_files webpack_files].
  split; [lia|]. split.
  - pose proof (filter_disjoint_length
      (fun f => in_list (type f) ["js"; "jsx"; "ts"; "tsx"])
      (fun f => in_list (type f) ["css"; "scss"; "sass"]) files) as H.
    assert (forall x : file_info,
      in_list (type x) ["js"; "jsx"; "ts"; "tsx"] = true ->
      in_list (type x) ["css"; "scss"; "sass"] = true -> False) as Hdis.
    { intros x. unfold in_list. cbn [existsb]. rewrite !orb_false_r.
      intros H1 H2.
      repeat (apply orb_prop in H1 as [H1|H1]);
        apply String.eqb_eq in H1; rewrite H1 in H2; discriminate. }
    specialize (H Hdis). lia.
  - intros Hwf.
    rewrite <- Nat2Z.inj_add. f_equal.
    apply filter_partition_length.
    eapply Forall_impl; [exact Hwf|].
    intros f (_ & _ & [[-> _]|[-> _]]); reflexivity.
Qed.

Lemma summary_counts_add_up_witness :
  (sourcemap_files (summarize [Sample.record_a; Sample.record_b]) +
   webpack_files (summarize [Sample.record_a; Sample.record_b]) =
   Z.of_nat (length [Sample.record_a; Sample.record_b]))%Z.
Proof.
  apply (summary_counts_add_up [Sample.record_a; Sample.record_b]).
  assert (forall f, In f [Sample.record_a; Sample.record_b] -> well_formed_record f)
    as Hwf.
  { intros f [<-|[<-|[]]];
      (split; [reflexivity|split; [reflexivity|left; split; [reflexivity|discriminate]]]). }
  apply Forall_forall. intros f Hf. apply Hwf. now apply list_elem_of_In.
Defined.

Lemma write_all_counts files :
  forall disk successful failed disk' successful' failed',
    write_all files disk successful failed = (disk', successful', failed') ->
    successful' + failed' = successful + failed + length files /\
    successful <= successful' /\
    successful' - successful <=
      length (List.filter (fun f => py_bool (content f)) files).
Proof.
  induction files as [|f files IH];
    intros disk successful failed disk' successful' failed' H.
  - injection H as <- <- <-. simpl. lia.
  - cbn [Collaborators.write_all] in H. cbn [List.filter length].
    destruct (py_bool (content f)); cbn [negb] in H.
    + destruct (write_file disk f) as [disk1 written].
      destruct written; apply IH in H; simpl; lia.
    + apply IH in H. lia.
Qed.

Lemma write_all_untouched files :
  Forall (fun f => py_bool (content f) = false) files ->
  forall disk successful failed,
    write_all files disk successful failed =
      (disk, successful, failed + length files).
Proof.
  induction 1 as [|f files Hf _ IH]; intros disk successful failed.
  - simpl. now rewrite Nat.add_0_r.
  - cbn [Collaborators.write_all]. rewrite Hf. cbn [negb].
    rewrite IH. simpl. do 2 f_equal. lia.
Qed.


(** X21. Records without a true content (an empty text, for one) are never
    written: a ledger made of such records leaves the file system as the
    creation of the output folder left it, counts every record as failed
    and reports failure. *)
Theorem download_skips_empty_contents :
  forall files disk disk',
    files <> [] ->
    Forall (fun f => py_bool (content f) = false) files ->
    mkdir_output disk = (disk', true) ->
    _show_created_structure disk' = true ->
    download_files files disk = (disk', Returned 0 (length files) false).
Proof.
  intros files disk disk' Hne Hempty Hmk Hshow.
  destruct files as [|f files]; [easy|].
  unfold Collaborators.download_files. rewrite Hmk.
  rewrite (write_all_untouched _ Hempty), Hshow. reflexivity.
Qed.

End Presentation.

(** ** What the sourcemap branch records *)

Section SourcemapFilter.
Import RunFacts ReactSourceDownloader.



End SourcemapFilter.

(** ** The further properties on the sample run *)

Module SampleRunMore.
Import ReactSourceDownloader Sample.

Lemma fetch_returns_first_answer_witness :
  exists before endpoint after,
    [ "__webpack_dev_server__/src/" +:+ "webpack://src/App.js";
      "webpack://" +:+ "webpack://src/App.js";
      "src/" +:+ "webpack://src/App.js";
      "webpack://src/App.js" ] = before ++ endpoint :: after /\
    Forall (fun e => try_endpoint base_url quote session_get e = None) before /\
    exists encoded_path response,
      quote endpoint = Some encoded_path /\
      session_get (base_url +:+ "/" +:+ encoded_path) = Some response /\
      status_code response = 200%Z /\
      text response = "export default App".
Proof.
  apply (proj1 (fetch_returns_first_answer base_url quote session_get
                  "webpack://src/App.js") "export default App").
  reflexivity.
Defined.

Lemma sources_only_map_needs_server_witness :
  fst (parse_loaded base_url quote (fun _ => None) map_c [record_a]) = [record_a].
Proof.
  apply (sources_only_map_needs_server base_url quote (fun _ => None));
    [discriminate|reflexivity].
Defined.

Lemma discover_files_keeps_ledger_well_formed_witness :
  NoDup (path <$> snd (Collaborators.discover_files json_loads base_url quote
                         SampleSite.session_get SampleSite.find_scripts
                         SampleSite.find_styles SampleSite.urljoin [] [])) /\
  Forall well_formed_record
    (snd (Collaborators.discover_files json_loads base_url quote
            SampleSite.session_get SampleSite.find_scripts
            SampleSite.find_styles SampleSite.urljoin [] [])).
Proof.
  apply (discover_files_keeps_ledger_well_formed json_loads base_url quote
           SampleSite.session_get SampleSite.find_scripts SampleSite.find_styles
           SampleSite.urljoin [] []); constructor.
Defined.

Lemma reading_a_map_twice_adds_nothing_witness :
  parse_loaded base_url quote session_get map_b
    (fst (parse_loaded base_url quote session_get map_b [record_a])) =
  parse_loaded base_url quote session_get map_b [record_a].
Proof.
  apply (reading_a_map_twice_adds_nothing base_url quote session_get
           [("sources", JArr [JStr "a.js"; JStr "b.js"; JStr "c.js"]);
            ("sourcesContent", JArr [JStr "other"; JStr "contentB"])]
           (JArr [JStr "a.js"; JStr "b.js"; JStr "c.js"])
           (JArr [JStr "other"; JStr "contentB"]));
    reflexivity.
Defined.

Lemma map_appends_at_most_its_entries_witness :
  exists ext,
    fst (parse_loaded base_url quote session_get map_b [record_a]) =
      [record_a] ++ ext /\
    length ext <= 3 /\ length ext <= 2.
Proof.
  destruct (map_appends_at_most_its_entries base_url quote session_get
              [("sources", JArr [JStr "a.js"; JStr "b.js"; JStr "c.js"]);
               ("sourcesContent", JArr [JStr "other"; JStr "contentB"])]
              [JStr "a.js"; JStr "b.js"; JStr "c.js"] [record_a] eq_refl)
    as (ext & Hext & Hsrcs & Hcnts).
  exists ext. repeat split; [exact Hext|exact Hsrcs|].
  apply (Hcnts [JStr "other"; JStr "contentB"]). reflexivity.
Defined.

Lemma scan_main_page_adds_local_bundles_witness :
  Collaborators._scan_main_page base_url session_get
    SampleSite.find_scripts SampleSite.find_styles SampleSite.urljoin
    ["http://localhost:3000/old.js"] = ["http://localhost:3000/old.js"].
Proof.
  apply (proj2 (scan_main_page_adds_local_bundles base_url session_get
                  SampleSite.find_scripts SampleSite.find_styles
                  SampleSite.urljoin ["http://localhost:3000/old.js"])).
  intros response H. vm_compute in H. discriminate.
Defined.


Lemma file_tree_holds_every_record_witness :
  Tree.count_files
    (Tree.Level (Some [ {| Tree.name := "a.js"; Tree.type := "js";
                           Tree.source := "sourcemap"; Tree.size := 8 |};
                        {| Tree.name := "b.js"; Tree.type := "js";
                           Tree.source := "sourcemap"; Tree.size := 8 |} ])
       None) =
  length [record_a; record_b].
Proof.
  apply (file_tree_holds_every_record SampleSite.number_truthy
           [record_a; record_b]).
  reflexivity.
Defined.


Lemma download_skips_empty_contents_witness :
  Collaborators.download_files SampleSite.number_truthy SampleSite.disk
    SampleSite.mkdir_output SampleSite.write_file
    SampleSite._show_created_structure [SampleSite.record_empty] [] =
  ([], Returned 0 (length [SampleSite.record_empty]) false).
Proof.
  apply (download_skips_empty_contents SampleSite.number_truthy SampleSite.disk
           SampleSite.mkdir_output SampleSite.write_file
           SampleSite._show_created_structure);
    [discriminate|repeat constructor|reflexivity|reflexivity].
Defined.

End SampleRunMore.
